(** * LoRA adapter loading: a shallow embedding of [src/models/lora_adapter.cpp]

    The C++ translation unit is embedded function by function.  Exceptions
    ([throw std::runtime_error]) become the [Throw] outcome of a small
    state-and-error monad; [std::shared_ptr<OrtValue>] becomes an address
    paired with the (immutable) tensor it points to, so that "the same
    instance" and "a fresh copy" can be told apart; the registry
    ([AdapterMap]) is a finite map keyed by adapter name. *)

From Stdlib Require Import ZArith String List Lia.
From stdpp Require Import base gmap sets list strings.

(** ** Enumerations used by the translation unit *)

(** [Generators::DeviceType], the device the model runs on.  The source
    names [CPU] and [CUDA] and mentions DML in a comment. *)
Inductive DeviceType := CPU | CUDA | DML.

(** [OrtMemoryInfoDeviceType] of the inference engine's C API: where the
    bytes of a tensor live. *)
Inductive OrtMemoryInfoDeviceType :=
| OrtMemoryInfoDeviceType_CPU
| OrtMemoryInfoDeviceType_GPU
| OrtMemoryInfoDeviceType_FPGA.

#[global] Instance DeviceType_eq_dec : EqDecision DeviceType.
Proof. solve_decision. Defined.

#[global] Instance OrtMemoryInfoDeviceType_eq_dec : EqDecision OrtMemoryInfoDeviceType.
Proof. solve_decision. Defined.

(** ** Errors

    Every failure in the source is a [std::runtime_error] distinguished by
    its message; one constructor stands for each throw site, carrying the
    variable part of the message. *)

Inductive IOStage := Opening | Reading.

Inductive Error :=
| IOError (stage : IOStage) (file_name : string)
    (* "Error opening flatbuffers file: " / "Error reading flatbuffers file: " *)
| InvalidFormat (file_name : string)
    (* ": does not appear to be a valid lora parameter format" *)
| CorruptData (file_name : string)
    (* ": fails flatbuffers format verification" *)
| UnsupportedVersion (file_name : string)
    (* ": unsupported lora format version" *)
| InvalidShape
    (* "Shape must have at least 2 dimensions" *)
| UnsupportedDevicePlacement (named : DeviceType)
    (* "Lora parameter buffers are on unsupported device: " + to_string(int(named)) *)
| DuplicateAdapterName (adapter_name : string)
    (* "Adapter: " + adapter_name + " already exist" *)
| UnknownAdapter (adapter_name : string).
    (* raised by the registry's lookup, which lives outside this unit *)

(** ** The state-and-error monad

    A computation over a state [S] either returns or throws; in both cases
    the state reached so far is kept, as a C++ exception does not undo the
    writes made before it. *)

Inductive Res (A : Type) :=
| Ok (a : A)
| Throw (e : Error).
Arguments Ok {A} a.
Arguments Throw {A} e.

Definition M (S A : Type) : Type := S → Res A * S.

Definition ret {S A} (a : A) : M S A := λ s, (Ok a, s).
Definition throw {S A} (e : Error) : M S A := λ s, (Throw e, s).
Definition bind {S A B} (m : M S A) (k : A → M S B) : M S B :=
  λ s, match m s with
       | (Ok a, s') => k a s'
       | (Throw e, s') => (Throw e, s')
       end.

(** Run a computation on a component of the state (a member object, or the
    ambient world). *)
Definition zoom {S T A} (proj : S → T) (upd : T → S → S) (m : M T A) : M S A :=
  λ s, let '(r, t) := m (proj s) in (r, upd t s).

Notation "x <- m ;; k" := (bind m (λ x, k))
  (at level 100, m at next level, right associativity).
Notation "m ;;; k" := (bind m (λ _, k))
  (at level 100, right associativity).

(** ** The world: tensor allocations and an observation log

    [live] is the set of addresses of the [OrtValue] objects allocated so
    far.  [trace] records, in order, the calls the format store makes to
    the file system and to the three validators. *)

Inductive Event :=
| EvOpenFile (file_name : string)
| EvMagicCheck
| EvSchemaVerify
| EvVersionCheck.

Record World := mkWorld { live : gset N; trace : list Event }.

Definition emit (e : Event) : M World unit :=
  λ w, (Ok tt, {| live := live w; trace := trace w ++ [e] |}).

(** ** Tensors *)

Record OrtMemoryInfo := { GetDeviceType : OrtMemoryInfoDeviceType }.

Record OrtValue := {
  GetShape : list Z;               (* std::vector<int64_t> *)
  GetElementType : Z;              (* ONNXTensorElementDataType *)
  GetTensorData : list Byte.byte;
  GetTensorMemoryInfo : OrtMemoryInfo
}.

(** [std::shared_ptr<T>]: the address gives the identity of the pointee. *)
Record shared_ptr (T : Type) := mk_shared { addr : N; deref : T }.
Arguments mk_shared {T} addr deref.
Arguments addr {T} _.
Arguments deref {T} _.

Definition make_shared {T} (v : T) : M World (shared_ptr T) :=
  λ w, let a := fresh (live w) in
       (Ok (mk_shared a v), {| live := {[a]} ∪ live w; trace := trace w |}).

(** [OrtValue::CreateTensor(info, p_data, p_data_len, shape, type)]: a new
    tensor object over the given bytes. *)
Definition CreateTensor (info : OrtMemoryInfo) (data : list Byte.byte)
    (shape : list Z) (type : Z) : M World (shared_ptr OrtValue) :=
  make_shared {| GetShape := shape; GetElementType := type;
                 GetTensorData := data; GetTensorMemoryInfo := info |}.

(** Number of elements of a tensor of the given shape. *)
Definition element_count (shape : list Z) : Z := foldr Z.mul 1%Z shape.

(** ** The model, as far as this unit reads it *)

(** An allocator, as far as it is asked: [GetInfo()]. *)
Record OrtAllocator := { GetInfo : OrtMemoryInfo }.

Record Model := {
  device_type_ : DeviceType;
  allocator_device_ : OrtAllocator
}.

(** ** [details::CreateEmptyInput] *)

(** Conversion of an [int64_t] extent to [size_t] (64 bits). *)
Definition to_size_t (z : Z) : Z := (z mod 2 ^ 64)%Z.

Definition CreateEmptyInput (model : Model) (original : OrtValue)
    : M World (shared_ptr OrtValue) :=
  let requested_mem_info := GetInfo (allocator_device_ model) in
  let shape := GetShape original in
  (* Modify shape *)
  let num_dims := length shape in
  if (num_dims <? 2)%nat then throw InvalidShape
  else
    (* Zero out lora_r dim *)
    let last_dim := to_size_t (shape !!! (num_dims - 1)%nat) in
    let penal_dim := to_size_t (shape !!! (num_dims - 2)%nat) in
    let shape :=
      if (last_dim <? penal_dim)%Z
      then <[(num_dims - 1)%nat := 0%Z]> shape
      else <[(num_dims - 2)%nat := 0%Z]> shape in
    CreateTensor requested_mem_info [] shape (GetElementType original).

(** ** The file system and the flatbuffers helpers

    [BinaryFormatHolder::Load] opens the file, reads it whole and hands the
    bytes to three helpers generated from the flatbuffers schema.  Neither
    the file system nor the helpers belong to this unit: they are taken as
    parameters. *)

Inductive FileOutcome :=
| CannotOpen                               (* [!is.good()] after construction *)
| ReadFails (partial : list Byte.byte)     (* [!is.good()] after [is.read] *)
| ReadOk (bytes : list Byte.byte).

(** The flatbuffers view: [lora_parameters::Tensor] and
    [lora_parameters::Parameters]. *)
Record fbs_Tensor := {
  fbs_name : string;
  fbs_dims : list Z;
  fbs_data_type : Z;
  fbs_raw_data : list Byte.byte
}.

Record fbs_Parameters := {
  fbs_version : Z;
  fbs_parameters : list fbs_Tensor
}.

Class Externals := {
  open_and_read : string → FileOutcome;
  IsGenAiLoraFormatModelBytes : list Byte.byte → bool;
  VerifyParametersBuffer : list Byte.byte → bool;
  GetParameters : list Byte.byte → fbs_Parameters;
  IsLoraFormatVersionSupported : Z → bool;
  path_append : string → string → string      (* [fs::path::operator/] *)
}.

(** ** Objects of the unit *)

Record BinaryFormatHolder := {
  buffer_ : list Byte.byte;
  bfh_parameters_ : option fbs_Parameters     (* [nullptr] until a load gets that far *)
}.

Record LoraParam := {
  lp_name_ : string;
  ort_user_supplied_value_ : shared_ptr OrtValue
}.

Record LoraAdapter := {
  name_ : string;
  format_holder_ : BinaryFormatHolder;
  parameters_ : list LoraParam
}.

Record LoraAdapterContainer := {
  adapters_ : gmap string LoraAdapter
}.

(** A default-constructed adapter, as [adapters[adapter_name]] creates it. *)
Definition LoraAdapter_default : LoraAdapter :=
  {| name_ := ""; format_holder_ := {| buffer_ := []; bfh_parameters_ := None |};
     parameters_ := [] |}.

#[global] Instance LoraAdapter_inhabited : Inhabited LoraAdapter :=
  populate LoraAdapter_default.

Definition SetName (name : string) (self : LoraAdapter) : LoraAdapter :=
  {| name_ := name; format_holder_ := format_holder_ self;
     parameters_ := parameters_ self |}.

(** State of a method call: the object and the world. *)
Definition in_world {O A} (m : M World A) : M (O * World) A :=
  zoom snd (λ w s, (s.1, w)) m.

Definition on_self {O} (f : O → O) : M (O * World) unit :=
  λ s, (Ok tt, (f s.1, s.2)).

Definition self {O} : M (O * World) O := λ s, (Ok s.1, s).

(** Run a method of the [format_holder_] member. *)
Definition in_format_holder {A} (m : M (BinaryFormatHolder * World) A)
    : M (LoraAdapter * World) A :=
  zoom (λ s, (format_holder_ s.1, s.2))
       (λ t s, ({| name_ := name_ s.1; format_holder_ := t.1;
                   parameters_ := parameters_ s.1 |}, t.2)) m.

(** Run a method of the element [adapters[key]] of a local map. *)
Definition in_element {A} (key : string) (m : M (LoraAdapter * World) A)
    : M (gmap string LoraAdapter * World) A :=
  zoom (λ s, (s.1 !!! key, s.2)) (λ t s, (<[key := t.1]> s.1, t.2)) m.

Section Loader.
Context `{ext : Externals}.

(** *** [BinaryFormatHolder::Load] *)

Definition Load (file_name : string) : M (BinaryFormatHolder * World) unit :=
  in_world (emit (EvOpenFile file_name)) ;;;
  match open_and_read file_name with
  | CannotOpen => throw (IOError Opening file_name)
  | ReadFails partial =>
      on_self (λ h, {| buffer_ := partial; bfh_parameters_ := bfh_parameters_ h |}) ;;;
      throw (IOError Reading file_name)
  | ReadOk bytes =>
      on_self (λ h, {| buffer_ := bytes; bfh_parameters_ := bfh_parameters_ h |}) ;;;
      h <- self ;;
      in_world (emit EvMagicCheck) ;;;
      if negb (IsGenAiLoraFormatModelBytes (buffer_ h))
      then throw (InvalidFormat file_name)
      else
        in_world (emit EvSchemaVerify) ;;;
        if negb (VerifyParametersBuffer (buffer_ h))
        then throw (CorruptData file_name)
        else
          let parameters := GetParameters (buffer_ h) in
          on_self (λ h, {| buffer_ := buffer_ h;
                           bfh_parameters_ := Some parameters |}) ;;;
          in_world (emit EvVersionCheck) ;;;
          if negb (IsLoraFormatVersionSupported (fbs_version parameters))
          then throw (UnsupportedVersion file_name)
          else ret tt
  end.

(** The extractor [lora_parameters::utils::CreateOrtValueOverFlatBufferLoraParameter]
    is defined outside this unit; the loader is written over any extractor. *)
Variable create_ort_value : fbs_Tensor → M World (string * shared_ptr OrtValue).

(** *** [LoraAdapter::LoadParametersFromFlatBuffer] *)

(** The range-for over [*fbs_parameters->parameters()], filling the local
    vector [parameters]. *)
Fixpoint LoadParametersFromFlatBuffer_loop (tensors : list fbs_Tensor)
    (parameters : list LoraParam) : M World (list LoraParam) :=
  match tensors with
  | [] => ret parameters
  | fbs_tensor :: rest =>
      p <- create_ort_value fbs_tensor ;;
      LoadParametersFromFlatBuffer_loop rest
        (parameters ++ [{| lp_name_ := p.1; ort_user_supplied_value_ := p.2 |}])
  end.

Definition LoadParametersFromFlatBuffer (file_name : string)
    : M (LoraAdapter * World) unit :=
  in_format_holder (Load file_name) ;;;
  a <- self ;;
  match bfh_parameters_ (format_holder_ a) with
  | None => ret tt    (* not reachable: a load that returns has set the view *)
  | Some view =>
      parameters <- in_world
        (LoadParametersFromFlatBuffer_loop (fbs_parameters view) []) ;;
      (* parameters_.swap(parameters) *)
      on_self (λ a, {| name_ := name_ a; format_holder_ := format_holder_ a;
                       parameters_ := parameters |})
  end.

(** *** [LoraAdapterContainer::LoadAdaptersFromConfig] *)

(** The range-for over [config.lora_adapters.adapters], seen as the
    sequence of [(adapter_name, file_name)] pairs it iterates over; the
    state holds the local map [adapters]. *)
Fixpoint LoadAdaptersFromConfig_loop (model_path : string)
    (entries : list (string * string)) : M (gmap string LoraAdapter * World) unit :=
  match entries with
  | [] => ret tt
  | (adapter_name, file_name) :: rest =>
      adapters <- self ;;
      match adapters !! adapter_name with
      | Some _ => throw (DuplicateAdapterName adapter_name)
      | None =>
          (* auto& adapter = adapters[adapter_name]; *)
          on_self (λ m, <[adapter_name := LoraAdapter_default]> m) ;;;
          in_element adapter_name (on_self (SetName adapter_name)) ;;;
          let full_path := path_append model_path file_name in
          in_element adapter_name (LoadParametersFromFlatBuffer full_path) ;;;
          LoadAdaptersFromConfig_loop model_path rest
      end
  end.

Definition LoadAdaptersFromConfig (model_path : string)
    (config : list (string * string)) : M (LoraAdapterContainer * World) unit :=
  λ s,
    match LoadAdaptersFromConfig_loop model_path config (∅, s.2) with
    | (Ok _, (adapters, w)) =>
        (* adapters_.swap(adapters) *)
        (Ok tt, ({| adapters_ := adapters |}, w))
    | (Throw e, (_, w)) => (Throw e, (s.1, w))
    end.

End Loader.

(** ** [details::MakeDeviceCopyIfNeeded]

    [CopyToDevice] is declared in [model.h] and defined outside this unit;
    the decision function is written over any copy routine. *)

Section DeviceMaterializer.
Variable copy_to_device : OrtValue → Model → M World (shared_ptr OrtValue).

Definition MakeDeviceCopyIfNeeded (model : Model) (param : LoraParam)
    : M World (shared_ptr OrtValue) :=
  let src_value := ort_user_supplied_value_ param in
  (* Check if the target device is not CPU *)
  if decide (device_type_ model ≠ CPU) then
    (* Check if the user has already supplied his buffers on the target device *)
    let mem_info := GetTensorMemoryInfo (deref src_value) in
    let src_device_type := GetDeviceType mem_info in
    if decide (device_type_ model = CUDA ∧
               src_device_type = OrtMemoryInfoDeviceType_GPU) then
      (* Re-use what user has supplied on GPU *)
      ret src_value
    else if decide (src_device_type ≠ OrtMemoryInfoDeviceType_CPU) then
      throw (UnsupportedDevicePlacement (device_type_ model))
    else
      copy_to_device (deref src_value) model
  else
    ret src_value.

End DeviceMaterializer.

(** ** Collaborators modelled from the specification *)

(** Modelled from the spec: [CopyToDevice] (defined outside this unit).
    "Allocate a destination tensor on targetDevice and copy host→device;
    return the new tensor": a new tensor object placed by the model's
    device allocator, with the shape, element type and bytes of the
    source. *)
Definition CopyToDevice (source : OrtValue) (model : Model)
    : M World (shared_ptr OrtValue) :=
  CreateTensor (GetInfo (allocator_device_ model)) (GetTensorData source)
               (GetShape source) (GetElementType source).

Definition host_memory : OrtMemoryInfo :=
  {| GetDeviceType := OrtMemoryInfoDeviceType_CPU |}.

(** Modelled from the spec: [lora_parameters::utils::CreateOrtValueOverFlatBufferLoraParameter]
    (defined outside this unit), the Parameter Extractor.  For a record it
    produces the declared name and "a freshly allocated, host-resident
    tensor whose shape/type/bytes are bit-identical to the record"; it
    "fails with InvalidShape if a record's rank is below 2". *)
Definition CreateOrtValueOverFlatBufferLoraParameter (tensor : fbs_Tensor)
    : M World (string * shared_ptr OrtValue) :=
  if (length (fbs_dims tensor) <? 2)%nat then throw InvalidShape
  else
    ort_value <- CreateTensor host_memory (fbs_raw_data tensor)
                   (fbs_dims tensor) (fbs_data_type tensor) ;;
    ret (fbs_name tensor, ort_value).

(** Modelled from the spec: [LoraAdapter::Parameters()] (declared in the
    header), "a lazy sequence of (name, tensor)" over the parameter list. *)
Definition Parameters (a : LoraAdapter) : list (string * shared_ptr OrtValue) :=
  map (λ p, (lp_name_ p, ort_user_supplied_value_ p)) (parameters_ a).

(** Modelled from the spec: the registry's [Get(name)] (defined outside
    this unit), which "fails with UnknownAdapter if absent". *)
Definition Get (name : string) (c : LoraAdapterContainer) : Res LoraAdapter :=
  match adapters_ c !! name with
  | Some a => Ok a
  | None => Throw (UnknownAdapter name)
  end.

(** The (name, shape, dtype, bytes) content of a serialized record and of a
    loaded parameter. *)
Definition record_content (t : fbs_Tensor) : string * list Z * Z * list Byte.byte :=
  (fbs_name t, fbs_dims t, fbs_data_type t, fbs_raw_data t).

Definition parameter_content (p : string * shared_ptr OrtValue)
    : string * list Z * Z * list Byte.byte :=
  (p.1, GetShape (deref p.2), GetElementType (deref p.2), GetTensorData (deref p.2)).

(** Observations on the outcome of a call. *)
Definition result_shape {S} (out : Res (shared_ptr OrtValue) * S) : option (list Z) :=
  match out.1 with
  | Ok p => Some (GetShape (deref p))
  | Throw _ => None
  end.

(** ** A small concrete installation, used to run the definitions

    A toy container format: byte 0 is the signature ([x47]), byte 1 the
    schema tag ([x56]), byte 2 the version (only 1 is supported) and byte 3
    selects one of three record tables. *)
Module Demo.

Definition lora_A : fbs_Tensor :=
  {| fbs_name := "lora_A"; fbs_dims := [8; 4]%Z; fbs_data_type := 1%Z;
     fbs_raw_data := [Byte.x01; Byte.x02] |}.
Definition lora_B : fbs_Tensor :=
  {| fbs_name := "lora_B"; fbs_dims := [4; 8]%Z; fbs_data_type := 1%Z;
     fbs_raw_data := [Byte.x03] |}.
Definition flat : fbs_Tensor :=
  {| fbs_name := "flat"; fbs_dims := [32]%Z; fbs_data_type := 1%Z;
     fbs_raw_data := [Byte.x04] |}.

Definition table (k : Byte.byte) : list fbs_Tensor :=
  match k with
  | Byte.x01 => [lora_A; lora_B]
  | Byte.x02 => [lora_A; flat; lora_B]
  | _ => []
  end.

Definition magic (b : list Byte.byte) : bool :=
  match b with Byte.x47 :: _ => true | _ => false end.
Definition verify (b : list Byte.byte) : bool :=
  match b with _ :: Byte.x56 :: _ => true | _ => false end.
Definition view (b : list Byte.byte) : fbs_Parameters :=
  match b with
  | _ :: _ :: v :: k :: _ =>
      {| fbs_version := Z.of_N (Byte.to_N v); fbs_parameters := table k |}
  | _ => {| fbs_version := 0; fbs_parameters := [] |}
  end.

Definition files (path : string) : FileOutcome :=
  if decide (path = "m/ab.bin") then
    ReadOk [Byte.x47; Byte.x56; Byte.x01; Byte.x01]
  else if decide (path = "m/empty.bin") then
    ReadOk [Byte.x47; Byte.x56; Byte.x01; Byte.x00]
  else if decide (path = "m/rank1.bin") then
    ReadOk [Byte.x47; Byte.x56; Byte.x01; Byte.x02]
  else if decide (path = "m/junk.bin") then
    ReadOk [Byte.x00; Byte.x00; Byte.x09; Byte.x02]
  else if decide (path = "m/short.bin") then
    ReadFails [Byte.x47]
  else CannotOpen.

#[export] Instance externals : Externals := {|
  open_and_read := files;
  IsGenAiLoraFormatModelBytes := magic;
  VerifyParametersBuffer := verify;
  GetParameters := view;
  IsLoraFormatVersionSupported := Z.eqb 1;
  path_append := λ dir file, (dir +:+ "/" +:+ file)%string
|}.

Definition gpu_memory : OrtMemoryInfo :=
  {| GetDeviceType := OrtMemoryInfoDeviceType_GPU |}.

Definition cpu_model : Model :=
  {| device_type_ := CPU; allocator_device_ := {| GetInfo := host_memory |} |}.
Definition cuda_model : Model :=
  {| device_type_ := CUDA; allocator_device_ := {| GetInfo := gpu_memory |} |}.
Definition dml_model : Model :=
  {| device_type_ := DML; allocator_device_ := {| GetInfo := gpu_memory |} |}.

Definition tensor (shape : list Z) (where_ : OrtMemoryInfo) : OrtValue :=
  {| GetShape := shape; GetElementType := 1%Z;
     GetTensorData := [Byte.x2a]; GetTensorMemoryInfo := where_ |}.

(** A world in which one tensor, at address 0, has been allocated. *)
Definition world0 : World := {| live := {[0%N]}; trace := [] |}.

Definition supplied (where_ : OrtMemoryInfo) : LoraParam :=
  {| lp_name_ := "lora_A";
     ort_user_supplied_value_ := mk_shared 0%N (tensor [8; 4]%Z where_) |}.

Definition old_adapter : LoraAdapter :=
  {| name_ := "a";
     format_holder_ := {| buffer_ := []; bfh_parameters_ := None |};
     parameters_ := [supplied host_memory] |}.

Definition registry_with_a : LoraAdapterContainer :=
  {| adapters_ := {[ "a" := old_adapter ]} |}.

Definition empty_registry : LoraAdapterContainer := {| adapters_ := ∅ |}.

End Demo.

(** ** Shorthands for the states a call leaves behind *)

(** The world after the given events have been logged. *)
Definition log (w : World) (events : list Event) : World :=
  {| live := live w; trace := trace w ++ events |}.

(** The format holder after its buffer has been overwritten. *)
Definition with_buffer (bytes : list Byte.byte) (h : BinaryFormatHolder)
    : BinaryFormatHolder :=
  {| buffer_ := bytes; bfh_parameters_ := bfh_parameters_ h |}.

(** The adapter after its format holder has been written to. *)
Definition with_holder (h : BinaryFormatHolder) (a : LoraAdapter) : LoraAdapter :=
  {| name_ := name_ a; format_holder_ := h; parameters_ := parameters_ a |}.

(** The world after one tensor object has been allocated. *)
Definition allocated (w : World) : World :=
  {| live := {[fresh (live w)]} ∪ live w; trace := trace w |}.

(** The events of a load that passes all three checks. *)
Definition load_events (file_name : string) : list Event :=
  [EvOpenFile file_name; EvMagicCheck; EvSchemaVerify; EvVersionCheck].

(** The events of a batch whose entries all load: one complete load per
    entry, in the order of the entries. *)
Definition batch_events `{ext : Externals} (model_path : string)
    (config : list (string * string)) : list Event :=
  concat (map (λ entry, load_events (path_append model_path entry.2)) config).

(** A second installation: the files of [Demo] and one more, which carries
    the signature and passes the schema check but has version 9. *)
Module Lab.

Definition files (path : string) : FileOutcome :=
  if decide (path = "m/v9.bin") then
    ReadOk [Byte.x47; Byte.x56; Byte.x09; Byte.x01]
  else Demo.files path.

#[export] Instance externals : Externals := {|
  open_and_read := files;
  IsGenAiLoraFormatModelBytes := Demo.magic;
  VerifyParametersBuffer := Demo.verify;
  GetParameters := Demo.view;
  IsLoraFormatVersionSupported := Z.eqb 1;
  path_append := λ dir file, (dir +:+ "/" +:+ file)%string
|}.

End Lab.

(** * Properties *)

(** ** Shapes *)

Lemma last_two_split {A} (l : list A) :
  (2 ≤ length l)%nat → ∃ prefix a b, l = prefix ++ [a; b].
Proof.
  intros Hlen. induction l as [|x l IH]; [simpl in Hlen; lia|].
  destruct l as [|y [|z l]].
  - simpl in Hlen. lia.
  - by exists [], x, y.
  - destruct IH as (prefix & a & b & E); [simpl; lia|].
    exists (x :: prefix), a, b. by rewrite E.
Qed.

Lemma element_count_app (l1 l2 : list Z) :
  element_count (l1 ++ l2) = (element_count l1 * element_count l2)%Z.
Proof.
  unfold element_count. induction l1 as [|d l1 IH]; simpl.
  - by destruct (foldr Z.mul 1%Z l2).
  - rewrite IH. lia.
Qed.

Lemma to_size_t_small (z : Z) : (0 ≤ z < 2 ^ 64)%Z → to_size_t z = z.
Proof. intros Hz. unfold to_size_t. by apply Z.mod_small. Qed.

(** What [CreateEmptyInput] does to a shape that ends in [penal; last]. *)
Lemma CreateEmptyInput_unfold (model : Model) (original : OrtValue) (w : World)
    (prefix : list Z) (penal last : Z) :
  GetShape original = prefix ++ [penal; last] →
  CreateEmptyInput model original w =
    CreateTensor (GetInfo (allocator_device_ model)) []
      (prefix ++ (if (to_size_t last <? to_size_t penal)%Z
                  then [penal; 0%Z] else [0%Z; last]))
      (GetElementType original) w.
Proof.
  intros Hs. unfold CreateEmptyInput. rewrite Hs.
  rewrite length_app. change (length [penal; last]) with 2%nat.
  replace (length prefix + 2 <? 2)%nat with false
    by (symmetry; apply Nat.ltb_ge; lia).
  replace (length prefix + 2 - 1)%nat with (length prefix + 1)%nat by lia.
  replace (length prefix + 2 - 2)%nat with (length prefix + 0)%nat by lia.
  rewrite (lookup_total_app_r prefix _ (length prefix + 1)) by lia.
  rewrite (lookup_total_app_r prefix _ (length prefix + 0)) by lia.
  replace (length prefix + 1 - length prefix)%nat with 1%nat by lia.
  replace (length prefix + 0 - length prefix)%nat with 0%nat by lia.
  rewrite !insert_app_r. simpl.
  by destruct (to_size_t last <? to_size_t penal)%Z.
Qed.

(** C1 (as amended): for a reference tensor of rank at least 2,
    [CreateEmptyInput] returns a tensor of the same rank and element type
    with zero elements; the last dimension is zeroed when it is strictly
    smaller than the second-to-last one, and the second-to-last dimension is
    zeroed otherwise, so a tie zeroes the second-to-last dimension. *)
Theorem CreateEmptyInput_zeroes_one_of_last_two
    (model : Model) (original : OrtValue) (w : World) :
  (2 ≤ length (GetShape original))%nat →
  ∃ p w',
    CreateEmptyInput model original w = (Ok p, w') ∧
    length (GetShape (deref p)) = length (GetShape original) ∧
    GetElementType (deref p) = GetElementType original ∧
    element_count (GetShape (deref p)) = 0%Z ∧
    (∀ prefix penal last,
      GetShape original = prefix ++ [penal; last] →
      GetShape (deref p) =
        prefix ++ (if (to_size_t last <? to_size_t penal)%Z
                   then [penal; 0%Z] else [0%Z; last])) ∧
    (∀ prefix penal last,
      GetShape original = prefix ++ [penal; last] →
      (0 ≤ penal < 2 ^ 63)%Z → (0 ≤ last < 2 ^ 63)%Z →
      GetShape (deref p) =
        prefix ++ (if (last <? penal)%Z then [penal; 0%Z] else [0%Z; last])).
Proof.
  intros Hrank.
  destruct (last_two_split _ Hrank) as (prefix & penal & last & Hs).
  rewrite (CreateEmptyInput_unfold model original w prefix penal last Hs).
  unfold CreateTensor, make_shared. eexists _, _. split; [reflexivity|]. simpl.
  split; [|split; [done|split; [|split]]].
  - rewrite Hs, !length_app. by destruct (to_size_t last <? to_size_t penal)%Z.
  - rewrite element_count_app.
    destruct (to_size_t last <? to_size_t penal)%Z; unfold element_count; simpl; lia.
  - intros prefix' penal' last' Hs'. rewrite Hs in Hs'.
    apply app_inj_2 in Hs' as [-> Htl]; [|done].
    by inversion Htl; subst.
  - intros prefix' penal' last' Hs' Hpenal Hlast. rewrite Hs in Hs'.
    apply app_inj_2 in Hs' as [-> Htl]; [|done].
    inversion Htl; subst.
    rewrite !to_size_t_small by lia. reflexivity.
Qed.

(** The three shapes of the specification, run through the theorem. *)
Lemma CreateEmptyInput_zeroes_one_of_last_two_witness :
  result_shape (CreateEmptyInput Demo.cpu_model
                  (Demo.tensor [8; 4]%Z host_memory) Demo.world0) = Some [8; 0]%Z
  ∧ result_shape (CreateEmptyInput Demo.cpu_model
                  (Demo.tensor [4; 8]%Z host_memory) Demo.world0) = Some [0; 8]%Z
  ∧ result_shape (CreateEmptyInput Demo.cpu_model
                  (Demo.tensor [4; 4]%Z host_memory) Demo.world0) = Some [0; 4]%Z.
Proof.
  split; [|split].
  - destruct (CreateEmptyInput_zeroes_one_of_last_two Demo.cpu_model
                (Demo.tensor [8; 4]%Z host_memory) Demo.world0)
      as (p & w' & E & _ & _ & _ & Hs & _); [simpl; lia|].
    unfold result_shape. rewrite E. simpl. f_equal. exact (Hs [] 8%Z 4%Z eq_refl).
  - destruct (CreateEmptyInput_zeroes_one_of_last_two Demo.cpu_model
                (Demo.tensor [4; 8]%Z host_memory) Demo.world0)
      as (p & w' & E & _ & _ & _ & Hs & _); [simpl; lia|].
    unfold result_shape. rewrite E. simpl. f_equal. exact (Hs [] 4%Z 8%Z eq_refl).
  - destruct (CreateEmptyInput_zeroes_one_of_last_two Demo.cpu_model
                (Demo.tensor [4; 4]%Z host_memory) Demo.world0)
      as (p & w' & E & _ & _ & _ & Hs & _); [simpl; lia|].
    unfold result_shape. rewrite E. simpl. f_equal. exact (Hs [] 4%Z 4%Z eq_refl).
Defined.

(** C1 as written fails on a tie: the reference shape [4, 4] yields
    [0, 4], not [4, 0]. *)
Lemma CreateEmptyInput_tie_counterexample :
  result_shape (CreateEmptyInput Demo.cpu_model
                  (Demo.tensor [4; 4]%Z host_memory) Demo.world0) ≠ Some [4; 0]%Z.
Proof. vm_compute. discriminate. Qed.

(** Below rank 2 the call fails. *)
Lemma CreateEmptyInput_low_rank (model : Model) (original : OrtValue) (w : World) :
  (length (GetShape original) < 2)%nat →
  CreateEmptyInput model original w = (Throw InvalidShape, w).
Proof.
  intros Hr. unfold CreateEmptyInput.
  by replace (length (GetShape original) <? 2)%nat with true
    by (symmetry; apply Nat.ltb_lt; lia).
Qed.

(** ** Device placement *)

(** C6: on a CPU target [MakeDeviceCopyIfNeeded] returns the supplied
    tensor itself, whatever its residency and whatever the copy routine;
    nothing is allocated. *)
Theorem MakeDeviceCopyIfNeeded_cpu_identity
    (copy_to_device : OrtValue → Model → M World (shared_ptr OrtValue))
    (model : Model) (param : LoraParam) (w : World) :
  device_type_ model = CPU →
  MakeDeviceCopyIfNeeded copy_to_device model param w
    = (Ok (ort_user_supplied_value_ param), w).
Proof.
  intros Hcpu. unfold MakeDeviceCopyIfNeeded.
  destruct (decide (device_type_ model ≠ CPU)) as [Hne|_]; [by destruct Hne|].
  reflexivity.
Qed.

Lemma MakeDeviceCopyIfNeeded_cpu_identity_witness :
  device_type_ Demo.cpu_model = CPU
  ∧ MakeDeviceCopyIfNeeded CopyToDevice Demo.cpu_model
      (Demo.supplied Demo.gpu_memory) Demo.world0
    = (Ok (ort_user_supplied_value_ (Demo.supplied Demo.gpu_memory)), Demo.world0).
Proof.
  split; [reflexivity|].
  apply (MakeDeviceCopyIfNeeded_cpu_identity CopyToDevice Demo.cpu_model
           (Demo.supplied Demo.gpu_memory) Demo.world0).
  reflexivity.
Defined.

(** The three branches taken on a target that is not the CPU. *)
Lemma MakeDeviceCopyIfNeeded_reuse
    (copy_to_device : OrtValue → Model → M World (shared_ptr OrtValue))
    (model : Model) (param : LoraParam) (w : World) :
  device_type_ model = CUDA →
  GetDeviceType (GetTensorMemoryInfo (deref (ort_user_supplied_value_ param)))
    = OrtMemoryInfoDeviceType_GPU →
  MakeDeviceCopyIfNeeded copy_to_device model param w
    = (Ok (ort_user_supplied_value_ param), w).
Proof.
  intros Hcuda Hgpu. unfold MakeDeviceCopyIfNeeded.
  rewrite Hcuda, Hgpu. reflexivity.
Qed.

Lemma MakeDeviceCopyIfNeeded_copy
    (copy_to_device : OrtValue → Model → M World (shared_ptr OrtValue))
    (model : Model) (param : LoraParam) (w : World) :
  device_type_ model ≠ CPU →
  GetDeviceType (GetTensorMemoryInfo (deref (ort_user_supplied_value_ param)))
    = OrtMemoryInfoDeviceType_CPU →
  MakeDeviceCopyIfNeeded copy_to_device model param w
    = copy_to_device (deref (ort_user_supplied_value_ param)) model w.
Proof.
  intros Hne Hcpu. unfold MakeDeviceCopyIfNeeded. rewrite Hcpu.
  destruct (decide (device_type_ model ≠ CPU)); [|done].
  destruct (decide (device_type_ model = CUDA ∧ _)) as [[_ ?]|_]; [done|].
  reflexivity.
Qed.

Lemma MakeDeviceCopyIfNeeded_unsupported
    (copy_to_device : OrtValue → Model → M World (shared_ptr OrtValue))
    (model : Model) (param : LoraParam) (w : World) :
  device_type_ model ≠ CPU →
  GetDeviceType (GetTensorMemoryInfo (deref (ort_user_supplied_value_ param)))
    ≠ OrtMemoryInfoDeviceType_CPU →
  ¬ (device_type_ model = CUDA ∧
     GetDeviceType (GetTensorMemoryInfo (deref (ort_user_supplied_value_ param)))
       = OrtMemoryInfoDeviceType_GPU) →
  MakeDeviceCopyIfNeeded copy_to_device model param w
    = (Throw (UnsupportedDevicePlacement (device_type_ model)), w).
Proof.
  intros Hne Hnc Hnr. unfold MakeDeviceCopyIfNeeded.
  destruct (decide (device_type_ model ≠ CPU)); [|done].
  destruct (decide (device_type_ model = CUDA ∧ _)); [done|].
  destruct (decide (_ ≠ OrtMemoryInfoDeviceType_CPU)); [|done].
  reflexivity.
Qed.

(** The copy routine of the specification allocates a new tensor object
    and carries the contents over. *)
Lemma CopyToDevice_fresh (source : OrtValue) (model : Model) (w : World) :
  ∃ p w',
    CopyToDevice source model w = (Ok p, w') ∧
    (addr p ∉ live w) ∧
    live w' = {[addr p]} ∪ live w ∧
    trace w' = trace w ∧
    GetShape (deref p) = GetShape source ∧
    GetElementType (deref p) = GetElementType source ∧
    GetTensorData (deref p) = GetTensorData source ∧
    GetTensorMemoryInfo (deref p) = GetInfo (allocator_device_ model).
Proof.
  unfold CopyToDevice, CreateTensor, make_shared.
  eexists _, _. split; [reflexivity|]. simpl.
  split; [apply is_fresh|]. done.
Qed.

(** C5 (as amended): on a target that is not the CPU,
    [MakeDeviceCopyIfNeeded] returns the supplied tensor itself (also when
    called twice) when the target is CUDA and the tensor is GPU-resident;
    returns a newly allocated tensor, placed by the model's device allocator
    and with the same shape, element type and bytes, when the tensor is
    host-resident; and fails with [UnsupportedDevicePlacement] in every
    other case, which includes a GPU-resident tensor on a target other than
    CUDA. *)
Theorem MakeDeviceCopyIfNeeded_on_accelerator
    (model : Model) (param : LoraParam) (w : World) :
  device_type_ model ≠ CPU →
  let src := ort_user_supplied_value_ param in
  let residency := GetDeviceType (GetTensorMemoryInfo (deref src)) in
  let resolve := MakeDeviceCopyIfNeeded CopyToDevice model param in
  (device_type_ model = CUDA → residency = OrtMemoryInfoDeviceType_GPU →
     resolve w = (Ok src, w) ∧
     (first <- resolve ;; second <- resolve ;; ret (first, second)) w
       = (Ok (src, src), w))
  ∧ (residency = OrtMemoryInfoDeviceType_CPU →
     ∃ p w',
       resolve w = (Ok p, w') ∧
       (addr p ∉ live w) ∧
       live w' = {[addr p]} ∪ live w ∧
       GetShape (deref p) = GetShape (deref src) ∧
       GetElementType (deref p) = GetElementType (deref src) ∧
       GetTensorData (deref p) = GetTensorData (deref src) ∧
       GetTensorMemoryInfo (deref p) = GetInfo (allocator_device_ model))
  ∧ (residency ≠ OrtMemoryInfoDeviceType_CPU →
     ¬ (device_type_ model = CUDA ∧ residency = OrtMemoryInfoDeviceType_GPU) →
     ∃ named, resolve w = (Throw (UnsupportedDevicePlacement named), w)).
Proof.
  intros Hne src residency resolve. subst src residency resolve.
  split; [|split].
  - intros Hcuda Hgpu. set (resolve := MakeDeviceCopyIfNeeded _ _ _).
    set (src := ort_user_supplied_value_ param).
    assert (∀ w0, resolve w0 = (Ok src, w0)) as Hr
      by (intros w0; by apply MakeDeviceCopyIfNeeded_reuse).
    split; [apply Hr|]. unfold bind. rewrite !Hr. reflexivity.
  - intros Hhost.
    rewrite MakeDeviceCopyIfNeeded_copy by done.
    destruct (CopyToDevice_fresh (deref (ort_user_supplied_value_ param)) model w)
      as (p & w' & E & Hfresh & Hlive & _ & Hsh & Hty & Hdata & Hmem).
    exists p, w'. by rewrite E.
  - intros Hnc Hnr. exists (device_type_ model).
    by apply MakeDeviceCopyIfNeeded_unsupported.
Qed.

(** The theorem at work: CUDA with a GPU tensor, CUDA with a host tensor,
    CUDA with an FPGA tensor, and DML with a GPU tensor. *)
Lemma MakeDeviceCopyIfNeeded_on_accelerator_witness :
  device_type_ Demo.cuda_model ≠ CPU
  ∧ MakeDeviceCopyIfNeeded CopyToDevice Demo.cuda_model
      (Demo.supplied Demo.gpu_memory) Demo.world0
    = (Ok (ort_user_supplied_value_ (Demo.supplied Demo.gpu_memory)), Demo.world0)
  ∧ (∃ p w',
       MakeDeviceCopyIfNeeded CopyToDevice Demo.cuda_model
         (Demo.supplied host_memory) Demo.world0 = (Ok p, w')
       ∧ (addr p ∉ live Demo.world0)
       ∧ GetTensorData (deref p) = [Byte.x2a])
  ∧ (∃ named,
       MakeDeviceCopyIfNeeded CopyToDevice Demo.dml_model
         (Demo.supplied Demo.gpu_memory) Demo.world0
       = (Throw (UnsupportedDevicePlacement named), Demo.world0)).
Proof.
  split; [discriminate|]. split; [|split].
  - apply (MakeDeviceCopyIfNeeded_on_accelerator Demo.cuda_model
             (Demo.supplied Demo.gpu_memory) Demo.world0); [discriminate|reflexivity..].
  - destruct (MakeDeviceCopyIfNeeded_on_accelerator Demo.cuda_model
                (Demo.supplied host_memory) Demo.world0) as (_ & Hcopy & _);
      [discriminate|].
    destruct (Hcopy eq_refl) as (p & w' & E & Hfresh & _ & _ & _ & Hdata & _).
    exists p, w'. split; [exact E|]. split; [exact Hfresh|exact Hdata].
  - destruct (MakeDeviceCopyIfNeeded_on_accelerator Demo.dml_model
                (Demo.supplied Demo.gpu_memory) Demo.world0) as (_ & _ & Hbad);
      [discriminate|].
    apply Hbad; [discriminate|]. intros [Hcuda _]. discriminate Hcuda.
Defined.

(** C5 as written fails on a DML target: a tensor that already resides on
    the device class of the target's allocator (GPU) is not returned; the
    call throws. *)
Lemma MakeDeviceCopyIfNeeded_dml_counterexample :
  device_type_ Demo.dml_model ≠ CPU
  ∧ GetTensorMemoryInfo (deref (ort_user_supplied_value_ (Demo.supplied Demo.gpu_memory)))
    = GetInfo (allocator_device_ Demo.dml_model)
  ∧ MakeDeviceCopyIfNeeded CopyToDevice Demo.dml_model
      (Demo.supplied Demo.gpu_memory) Demo.world0
    = (Throw (UnsupportedDevicePlacement DML), Demo.world0)
  ∧ (MakeDeviceCopyIfNeeded CopyToDevice Demo.dml_model
       (Demo.supplied Demo.gpu_memory) Demo.world0).1
    ≠ Ok (ort_user_supplied_value_ (Demo.supplied Demo.gpu_memory)).
Proof. split; [discriminate|]. split; [reflexivity|]. split; [reflexivity|discriminate]. Qed.

(** ** The format store *)

Section FormatStore.
Context `{ext : Externals}.

(** [Load], with the sequencing carried out. *)
Lemma Load_run (file_name : string) (h : BinaryFormatHolder) (w : World) :
  Load file_name (h, w) =
    match open_and_read file_name with
    | CannotOpen =>
        (Throw (IOError Opening file_name), (h, log w [EvOpenFile file_name]))
    | ReadFails partial =>
        (Throw (IOError Reading file_name),
         (with_buffer partial h, log w [EvOpenFile file_name]))
    | ReadOk bytes =>
        if negb (IsGenAiLoraFormatModelBytes bytes) then
          (Throw (InvalidFormat file_name),
           (with_buffer bytes h, log w [EvOpenFile file_name; EvMagicCheck]))
        else if negb (VerifyParametersBuffer bytes) then
          (Throw (CorruptData file_name),
           (with_buffer bytes h,
            log w [EvOpenFile file_name; EvMagicCheck; EvSchemaVerify]))
        else
          let after :=
            ({| buffer_ := bytes; bfh_parameters_ := Some (GetParameters bytes) |},
             log w [EvOpenFile file_name; EvMagicCheck; EvSchemaVerify;
                    EvVersionCheck]) in
          if negb (IsLoraFormatVersionSupported (fbs_version (GetParameters bytes)))
          then (Throw (UnsupportedVersion file_name), after)
          else (Ok tt, after)
    end.
Proof.
  unfold Load, bind, in_world, zoom, emit, on_self, self, throw, ret, log,
    with_buffer.
  simpl.
  destruct (open_and_read file_name) as [|partial|bytes]; simpl; [done..|].
  destruct (IsGenAiLoraFormatModelBytes bytes); simpl;
    [|by rewrite <- app_assoc].
  destruct (VerifyParametersBuffer bytes); simpl;
    [|by rewrite <- !app_assoc].
  destruct (IsLoraFormatVersionSupported _); simpl; by rewrite <- !app_assoc.
Qed.

(** A load that returns has set the view to the decoded buffer. *)
Lemma Load_ok_view (file_name : string) (h h' : BinaryFormatHolder) (w w' : World) :
  Load file_name (h, w) = (Ok tt, (h', w')) →
  ∃ bytes,
    open_and_read file_name = ReadOk bytes ∧
    IsGenAiLoraFormatModelBytes bytes = true ∧
    VerifyParametersBuffer bytes = true ∧
    IsLoraFormatVersionSupported (fbs_version (GetParameters bytes)) = true ∧
    h' = {| buffer_ := bytes; bfh_parameters_ := Some (GetParameters bytes) |} ∧
    w' = log w [EvOpenFile file_name; EvMagicCheck; EvSchemaVerify; EvVersionCheck].
Proof.
  rewrite Load_run.
  destruct (open_and_read file_name) as [|partial|bytes]; [done..|].
  destruct (IsGenAiLoraFormatModelBytes bytes) eqn:Hmagic; simpl; [|done].
  destruct (VerifyParametersBuffer bytes) eqn:Hschema; simpl; [|done].
  destruct (IsLoraFormatVersionSupported _) eqn:Hversion; simpl; [|done].
  intros Heq. inversion Heq; subst. by exists bytes.
Qed.

(** C4: on a file that can be read, [Load] checks the signature, then the
    schema, then the version, and stops at the first check that fails.  A
    file that fails the signature check is rejected with [InvalidFormat]
    after the signature check alone: neither the schema verifier nor the
    version check is called. *)
Theorem Load_checks_in_order
    (file_name : string) (bytes : list Byte.byte)
    (h : BinaryFormatHolder) (w : World) :
  open_and_read file_name = ReadOk bytes →
  let out := Load file_name (h, w) in
  let magic := IsGenAiLoraFormatModelBytes bytes in
  let schema := VerifyParametersBuffer bytes in
  let version := IsLoraFormatVersionSupported (fbs_version (GetParameters bytes)) in
  (magic = false →
     out.1 = Throw (InvalidFormat file_name) ∧
     trace out.2.2 = trace w ++ [EvOpenFile file_name; EvMagicCheck])
  ∧ (magic = true → schema = false →
     out.1 = Throw (CorruptData file_name) ∧
     trace out.2.2 = trace w ++ [EvOpenFile file_name; EvMagicCheck; EvSchemaVerify])
  ∧ (magic = true → schema = true → version = false →
     out.1 = Throw (UnsupportedVersion file_name) ∧
     trace out.2.2 =
       trace w ++ [EvOpenFile file_name; EvMagicCheck; EvSchemaVerify; EvVersionCheck])
  ∧ (magic = true → schema = true → version = true →
     out.1 = Ok tt ∧
     trace out.2.2 =
       trace w ++ [EvOpenFile file_name; EvMagicCheck; EvSchemaVerify; EvVersionCheck]).
Proof.
  intros Hread out magic schema version. subst out magic schema version.
  rewrite Load_run, Hread.
  split; [|split; [|split]].
  - by intros ->.
  - by intros -> ->.
  - by intros -> -> ->.
  - by intros -> -> ->.
Qed.

End FormatStore.

(** A file that fails the signature check, and would fail the schema and
    the version check as well: only [InvalidFormat] is reported and only
    the signature check is logged. *)
Lemma Load_checks_in_order_witness :
  Demo.files "m/junk.bin" = ReadOk [Byte.x00; Byte.x00; Byte.x09; Byte.x02]
  ∧ Demo.verify [Byte.x00; Byte.x00; Byte.x09; Byte.x02] = false
  ∧ (1 =? fbs_version (Demo.view [Byte.x00; Byte.x00; Byte.x09; Byte.x02]))%Z = false
  ∧ (Load (ext := Demo.externals) "m/junk.bin"
       (format_holder_ LoraAdapter_default, Demo.world0)).1
    = Throw (InvalidFormat "m/junk.bin")
  ∧ trace (Load (ext := Demo.externals) "m/junk.bin"
             (format_holder_ LoraAdapter_default, Demo.world0)).2.2
    = [EvOpenFile "m/junk.bin"; EvMagicCheck].
Proof.
  split; [reflexivity|]. split; [reflexivity|]. split; [reflexivity|].
  apply (Load_checks_in_order (ext := Demo.externals) "m/junk.bin"
           [Byte.x00; Byte.x00; Byte.x09; Byte.x02]
           (format_holder_ LoraAdapter_default) Demo.world0 eq_refl).
  reflexivity.
Defined.

(** ** The adapter *)

Section Adapter.
Context `{ext : Externals}.
Variable create_ort_value : fbs_Tensor → M World (string * shared_ptr OrtValue).

(** [LoadParametersFromFlatBuffer], with the sequencing carried out. *)
Lemma LoadParametersFromFlatBuffer_run
    (file_name : string) (a : LoraAdapter) (w : World) :
  LoadParametersFromFlatBuffer create_ort_value file_name (a, w) =
    match Load file_name (format_holder_ a, w) with
    | (Throw e, (h, w1)) => (Throw e, (with_holder h a, w1))
    | (Ok _, (h, w1)) =>
        match bfh_parameters_ h with
        | None => (Ok tt, (with_holder h a, w1))
        | Some view =>
            match LoadParametersFromFlatBuffer_loop create_ort_value
                    (fbs_parameters view) [] w1 with
            | (Throw e, w2) => (Throw e, (with_holder h a, w2))
            | (Ok parameters, w2) =>
                (Ok tt, ({| name_ := name_ a; format_holder_ := h;
                            parameters_ := parameters |}, w2))
            end
        end
    end.
Proof.
  unfold LoadParametersFromFlatBuffer, bind, in_format_holder, in_world, zoom,
    on_self, self, ret, with_holder.
  simpl.
  destruct (Load file_name (format_holder_ a, w)) as [[[]|e] [h w1]]; simpl; [|done].
  destruct (bfh_parameters_ h) as [view|]; simpl; [|done].
  by destruct (LoadParametersFromFlatBuffer_loop _ _ _ w1) as [[ps|e] w2].
Qed.

(** The extraction loop appends one parameter per record. *)
Lemma LoadParametersFromFlatBuffer_loop_length
    (tensors : list fbs_Tensor) (parameters result : list LoraParam) (w w' : World) :
  LoadParametersFromFlatBuffer_loop create_ort_value tensors parameters w
    = (Ok result, w') →
  length result = (length parameters + length tensors)%nat.
Proof.
  revert parameters w.
  induction tensors as [|t tensors IH]; intros parameters w; simpl.
  - unfold ret. intros [= <- _]. lia.
  - unfold bind. destruct (create_ort_value t w) as [[p|e] w1]; [|done].
    intros Hloop. apply IH in Hloop. rewrite length_app in Hloop. simpl in Hloop. lia.
Qed.

(** C7: [LoadParametersFromFlatBuffer] installs the new parameter list by
    one swap after every record has been extracted.  When the call fails,
    at whatever stage, the adapter's parameter list is the one it had
    before the call.  When it returns, the list is the result of the
    extraction started from an empty vector: one parameter per record of
    the file, whatever the adapter held before. *)
Theorem LoadParametersFromFlatBuffer_swaps_once
    (file_name : string) (a : LoraAdapter) (w : World) :
  let out := LoadParametersFromFlatBuffer create_ort_value file_name (a, w) in
  name_ out.2.1 = name_ a ∧
  match out.1 with
  | Throw _ => parameters_ out.2.1 = parameters_ a
  | Ok _ =>
      ∃ bytes,
        open_and_read file_name = ReadOk bytes ∧
        LoadParametersFromFlatBuffer_loop create_ort_value
          (fbs_parameters (GetParameters bytes)) [] (log w (load_events file_name))
          = (Ok (parameters_ out.2.1), out.2.2) ∧
        length (parameters_ out.2.1) = length (fbs_parameters (GetParameters bytes))
  end.
Proof.
  intros out. subst out. rewrite LoadParametersFromFlatBuffer_run.
  destruct (Load file_name (format_holder_ a, w)) as [[[]|e] [h w1]] eqn:Hload;
    simpl; [|done].
  apply Load_ok_view in Hload as (bytes & Hread & _ & _ & _ & -> & ->). simpl.
  destruct (LoadParametersFromFlatBuffer_loop _ _ _ _) as [[ps|e] w2] eqn:Hloop;
    simpl; [|done].
  split; [done|]. exists bytes. split; [done|]. split; [done|].
  by apply LoadParametersFromFlatBuffer_loop_length in Hloop.
Qed.

End Adapter.

(** An adapter that already holds one parameter: a load that fails keeps
    that list, a load of a file with two records leaves two parameters. *)
Lemma LoadParametersFromFlatBuffer_swaps_once_witness :
  parameters_ (LoadParametersFromFlatBuffer (ext := Demo.externals)
     CreateOrtValueOverFlatBufferLoraParameter "m/junk.bin"
     (Demo.old_adapter, Demo.world0)).2.1 = parameters_ Demo.old_adapter
  ∧ length (parameters_ (LoadParametersFromFlatBuffer (ext := Demo.externals)
     CreateOrtValueOverFlatBufferLoraParameter "m/ab.bin"
     (Demo.old_adapter, Demo.world0)).2.1) = 2%nat.
Proof.
  split.
  - destruct (LoadParametersFromFlatBuffer_swaps_once (ext := Demo.externals)
                CreateOrtValueOverFlatBufferLoraParameter "m/junk.bin"
                Demo.old_adapter Demo.world0) as [_ Hkept].
    exact Hkept.
  - destruct (LoadParametersFromFlatBuffer_swaps_once (ext := Demo.externals)
                CreateOrtValueOverFlatBufferLoraParameter "m/ab.bin"
                Demo.old_adapter Demo.world0) as [_ Hnew].
    destruct Hnew as (bytes & Hread & _ & Hlen).
    injection Hread as <-. exact Hlen.
Defined.

(** The extractor of the specification, with the sequencing carried out. *)
Lemma CreateOrtValueOverFlatBufferLoraParameter_run (tensor : fbs_Tensor) (w : World) :
  CreateOrtValueOverFlatBufferLoraParameter tensor w =
    if (length (fbs_dims tensor) <? 2)%nat then (Throw InvalidShape, w)
    else (Ok (fbs_name tensor,
              mk_shared (fresh (live w))
                {| GetShape := fbs_dims tensor; GetElementType := fbs_data_type tensor;
                   GetTensorData := fbs_raw_data tensor;
                   GetTensorMemoryInfo := host_memory |}),
          allocated w).
Proof.
  unfold CreateOrtValueOverFlatBufferLoraParameter.
  by destruct (length (fbs_dims tensor) <? 2)%nat.
Qed.

(** A record of rank below 2 stops the extraction with [InvalidShape]. *)
Lemma extraction_rejects_low_rank
    (tensors : list fbs_Tensor) (parameters : list LoraParam) (w : World) :
  Exists (λ t, (length (fbs_dims t) < 2)%nat) tensors →
  (LoadParametersFromFlatBuffer_loop CreateOrtValueOverFlatBufferLoraParameter
     tensors parameters w).1 = Throw InvalidShape.
Proof.
  intros Hex. revert parameters w.
  induction tensors as [|t tensors IH]; intros parameters w.
  - by apply Exists_nil in Hex.
  - simpl. unfold bind. rewrite CreateOrtValueOverFlatBufferLoraParameter_run.
    destruct (length (fbs_dims t) <? 2)%nat eqn:Hrank; [done|].
    apply Exists_cons in Hex as [Hlow|Hex].
    + apply Nat.ltb_ge in Hrank. lia.
    + by apply IH.
Qed.

(** When every record has rank at least 2 the extraction returns, and the
    parameters carry the content of the records, in order. *)
Lemma extraction_preserves_records
    (tensors : list fbs_Tensor) (parameters : list LoraParam) (w : World) :
  Forall (λ t, (2 ≤ length (fbs_dims t))%nat) tensors →
  ∃ result w',
    LoadParametersFromFlatBuffer_loop CreateOrtValueOverFlatBufferLoraParameter
      tensors parameters w = (Ok result, w') ∧
    map (λ p, parameter_content (lp_name_ p, ort_user_supplied_value_ p)) result =
      map (λ p, parameter_content (lp_name_ p, ort_user_supplied_value_ p)) parameters
      ++ map record_content tensors.
Proof.
  intros Hall. revert parameters w.
  induction Hall as [|t tensors Hrank Hall IH]; intros parameters w.
  - simpl. eexists _, _. split; [reflexivity|]. by rewrite app_nil_r.
  - simpl. unfold bind. rewrite CreateOrtValueOverFlatBufferLoraParameter_run.
    replace (length (fbs_dims t) <? 2)%nat with false
      by (symmetry; apply Nat.ltb_ge; lia).
    destruct (IH (parameters ++ [{|
                lp_name_ := fbs_name t;
                ort_user_supplied_value_ := mk_shared (fresh (live w))
                  {| GetShape := fbs_dims t; GetElementType := fbs_data_type t;
                     GetTensorData := fbs_raw_data t;
                     GetTensorMemoryInfo := host_memory |} |}]) (allocated w))
      as (result & w' & Hloop & Hcontent).
    exists result, w'. split; [exact Hloop|].
    rewrite Hcontent, map_app, <- app_assoc. reflexivity.
Qed.

Section AdapterFromFile.
Context `{ext : Externals}.

(** C3: on a readable file that passes the three checks and holds a record
    of rank below 2, [LoadParametersFromFlatBuffer] (with the extractor of
    the specification) fails with [InvalidShape] and the adapter keeps the
    parameter list it had before the call. *)
Theorem LoadParametersFromFlatBuffer_rejects_low_rank
    (file_name : string) (bytes : list Byte.byte) (a : LoraAdapter) (w : World) :
  open_and_read file_name = ReadOk bytes →
  IsGenAiLoraFormatModelBytes bytes = true →
  VerifyParametersBuffer bytes = true →
  IsLoraFormatVersionSupported (fbs_version (GetParameters bytes)) = true →
  Exists (λ t, (length (fbs_dims t) < 2)%nat) (fbs_parameters (GetParameters bytes)) →
  let out := LoadParametersFromFlatBuffer CreateOrtValueOverFlatBufferLoraParameter
               file_name (a, w) in
  out.1 = Throw InvalidShape ∧ parameters_ out.2.1 = parameters_ a.
Proof.
  intros Hread Hmagic Hschema Hversion Hlow out. subst out.
  rewrite LoadParametersFromFlatBuffer_run, Load_run, Hread, Hmagic, Hschema, Hversion.
  simpl.
  pose proof (extraction_rejects_low_rank _ [] (log w (load_events file_name)) Hlow)
    as Hthrow.
  unfold load_events in Hthrow.
  destruct (LoadParametersFromFlatBuffer_loop _ _ _ _) as [[ps|e] w2]; simpl in *;
    [done|].
  by inversion Hthrow.
Qed.

(** C9: on a readable file that passes the three checks and whose records
    all have rank at least 2, [LoadParametersFromFlatBuffer] (with the
    extractor of the specification) returns, and [Parameters()] then lists
    one parameter per record, with the name, shape, element type and bytes
    of the records, in file order. *)
Theorem LoadParametersFromFlatBuffer_then_Parameters
    (file_name : string) (bytes : list Byte.byte) (a : LoraAdapter) (w : World) :
  open_and_read file_name = ReadOk bytes →
  IsGenAiLoraFormatModelBytes bytes = true →
  VerifyParametersBuffer bytes = true →
  IsLoraFormatVersionSupported (fbs_version (GetParameters bytes)) = true →
  Forall (λ t, (2 ≤ length (fbs_dims t))%nat) (fbs_parameters (GetParameters bytes)) →
  let out := LoadParametersFromFlatBuffer CreateOrtValueOverFlatBufferLoraParameter
               file_name (a, w) in
  out.1 = Ok tt ∧
  map parameter_content (Parameters out.2.1)
    = map record_content (fbs_parameters (GetParameters bytes)).
Proof.
  intros Hread Hmagic Hschema Hversion Hall out. subst out.
  rewrite LoadParametersFromFlatBuffer_run, Load_run, Hread, Hmagic, Hschema, Hversion.
  simpl.
  destruct (extraction_preserves_records _ [] (log w (load_events file_name)) Hall)
    as (result & w' & Hloop & Hcontent).
  unfold load_events in Hloop. rewrite Hloop. simpl.
  split; [done|]. unfold Parameters. simpl. rewrite map_map. exact Hcontent.
Qed.

End AdapterFromFile.

(** The loader on a file with a rank-1 record, applied to an adapter that
    already holds a parameter list. *)
Lemma LoadParametersFromFlatBuffer_rejects_low_rank_witness :
  (LoadParametersFromFlatBuffer (ext := Demo.externals)
     CreateOrtValueOverFlatBufferLoraParameter "m/rank1.bin"
     (Demo.old_adapter, Demo.world0)).1 = Throw InvalidShape
  ∧ parameters_ (LoadParametersFromFlatBuffer (ext := Demo.externals)
       CreateOrtValueOverFlatBufferLoraParameter "m/rank1.bin"
       (Demo.old_adapter, Demo.world0)).2.1 = [Demo.supplied host_memory].
Proof.
  apply (LoadParametersFromFlatBuffer_rejects_low_rank (ext := Demo.externals)
           "m/rank1.bin" [Byte.x47; Byte.x56; Byte.x01; Byte.x02]
           Demo.old_adapter Demo.world0 eq_refl eq_refl eq_refl eq_refl).
  apply Exists_cons_tl, Exists_cons_hd. simpl. lia.
Defined.

(** The loader on a file with two records of rank 2. *)
Lemma LoadParametersFromFlatBuffer_then_Parameters_witness :
  (LoadParametersFromFlatBuffer (ext := Demo.externals)
     CreateOrtValueOverFlatBufferLoraParameter "m/ab.bin"
     (Demo.old_adapter, Demo.world0)).1 = Ok tt
  ∧ map parameter_content
      (Parameters (LoadParametersFromFlatBuffer (ext := Demo.externals)
         CreateOrtValueOverFlatBufferLoraParameter "m/ab.bin"
         (Demo.old_adapter, Demo.world0)).2.1)
    = [("lora_A", [8; 4]%Z, 1%Z, [Byte.x01; Byte.x02]);
       ("lora_B", [4; 8]%Z, 1%Z, [Byte.x03])].
Proof.
  apply (LoadParametersFromFlatBuffer_then_Parameters (ext := Demo.externals)
           "m/ab.bin" [Byte.x47; Byte.x56; Byte.x01; Byte.x01]
           Demo.old_adapter Demo.world0 eq_refl eq_refl eq_refl eq_refl).
  repeat constructor.
Defined.

(** ** The registry *)

Section Registry.
Context `{ext : Externals}.
Variable create_ort_value : fbs_Tensor → M World (string * shared_ptr OrtValue).

(** One iteration of the range-for, with the sequencing carried out. *)
Lemma LoadAdaptersFromConfig_loop_cons
    (model_path adapter_name file_name : string) (rest : list (string * string))
    (adapters : gmap string LoraAdapter) (w : World) :
  LoadAdaptersFromConfig_loop create_ort_value model_path ((adapter_name, file_name) :: rest) (adapters, w) =
    match adapters !! adapter_name with
    | Some _ => (Throw (DuplicateAdapterName adapter_name), (adapters, w))
    | None =>
        match LoadParametersFromFlatBuffer create_ort_value (path_append model_path file_name)
                (SetName adapter_name LoraAdapter_default, w) with
        | (Ok _, (a, w1)) => LoadAdaptersFromConfig_loop create_ort_value model_path rest (<[adapter_name := a]> adapters, w1)
        | (Throw e, (a, w1)) => (Throw e, (<[adapter_name := a]> adapters, w1))
        end
    end.
Proof.
  simpl. unfold bind, self, throw, on_self, in_element, zoom. simpl.
  destruct (adapters !! adapter_name) as [a0|]; [done|].
  rewrite !lookup_total_insert_eq, !insert_insert_eq.
  destruct (LoadParametersFromFlatBuffer create_ort_value _ _) as [[[]|e] [a w1]]; simpl;
    by rewrite ?insert_insert_eq.
Qed.

(** The loop over a concatenation runs the first part, then the second. *)
Lemma LoadAdaptersFromConfig_loop_app
    (model_path : string) (pre rest : list (string * string))
    (s : gmap string LoraAdapter * World) :
  LoadAdaptersFromConfig_loop create_ort_value model_path (pre ++ rest) s =
    match LoadAdaptersFromConfig_loop create_ort_value model_path pre s with
    | (Ok _, s1) => LoadAdaptersFromConfig_loop create_ort_value model_path rest s1
    | (Throw e, s1) => (Throw e, s1)
    end.
Proof.
  revert s. induction pre as [|[n f] pre IH]; intros [adapters w]; [done|].
  rewrite <- app_comm_cons, !LoadAdaptersFromConfig_loop_cons.
  destruct (adapters !! n); [done|].
  destruct (LoadParametersFromFlatBuffer create_ort_value _ _) as [[[]|e] [a w1]]; [apply IH|done].
Qed.

(** A load leaves the adapter's name alone. *)
Lemma LoadParametersFromFlatBuffer_name
    (file_name : string) (a : LoraAdapter) (w : World) :
  name_ (LoadParametersFromFlatBuffer create_ort_value file_name (a, w)).2.1 = name_ a.
Proof.
  rewrite LoadParametersFromFlatBuffer_run.
  destruct (Load file_name (format_holder_ a, w)) as [[[]|e] [h w1]]; [|done].
  destruct (bfh_parameters_ h); [|done].
  by destruct (LoadParametersFromFlatBuffer_loop _ _ _ _) as [[ps|e] w2].
Qed.

(** What a loop that returns has done to the local map. *)
Lemma LoadAdaptersFromConfig_loop_ok
    (model_path : string) (entries : list (string * string))
    (adapters adapters' : gmap string LoraAdapter) (w w' : World) :
  LoadAdaptersFromConfig_loop create_ort_value model_path entries (adapters, w) = (Ok tt, (adapters', w')) →
  NoDup entries.*1 ∧
  (∀ n, n ∈ entries.*1 → adapters !! n = None) ∧
  (∀ n, n ∈ entries.*1 → ∃ a, adapters' !! n = Some a ∧ name_ a = n) ∧
  (∀ n, n ∉ entries.*1 → adapters' !! n = adapters !! n).
Proof.
  revert adapters w.
  induction entries as [|[n f] entries IH]; intros adapters w.
  - simpl. unfold ret. intros [= <- <-].
    split; [constructor|]. split; [by intros n ?%elem_of_nil|].
    split; [by intros n ?%elem_of_nil|]. done.
  - rewrite LoadAdaptersFromConfig_loop_cons.
    destruct (adapters !! n) eqn:Hfree; [done|].
    destruct (LoadParametersFromFlatBuffer create_ort_value _ _) as [[[]|e] [a w1]] eqn:Hload; [|done].
    intros (Hnodup & Hnew & Hin & Hout)%IH.
    assert (n ∉ entries.*1) as Hn.
    { intros Hn. apply Hnew in Hn. by rewrite lookup_insert_eq in Hn. }
    assert (name_ a = n) as Hname.
    { pose proof (LoadParametersFromFlatBuffer_name
                    (path_append model_path f) (SetName n LoraAdapter_default) w)
        as Hnm.
      by rewrite Hload in Hnm. }
    simpl. split; [by constructor|]. split; [|split].
    + intros n' [->|Hn']%elem_of_cons; [done|].
      specialize (Hnew n' Hn'). rewrite lookup_insert_ne in Hnew; [done|].
      by intros ->.
    + intros n' [->|Hn']%elem_of_cons; [|by apply Hin].
      exists a. by rewrite Hout, lookup_insert_eq.
    + intros n' Hn'. apply not_elem_of_cons in Hn' as [Hne Hn'].
      rewrite Hout by done. by rewrite lookup_insert_ne.
Qed.

(** [LoadAdaptersFromConfig] in terms of its loop. *)
Lemma LoadAdaptersFromConfig_run
    (model_path : string) (config : list (string * string))
    (c : LoraAdapterContainer) (w : World) :
  LoadAdaptersFromConfig create_ort_value model_path config (c, w) =
    match LoadAdaptersFromConfig_loop create_ort_value model_path config (∅, w) with
    | (Ok _, (adapters, w1)) => (Ok tt, ({| adapters_ := adapters |}, w1))
    | (Throw e, (_, w1)) => (Throw e, (c, w1))
    end.
Proof. reflexivity. Qed.

(** A batch that repeats a name cannot run to completion. *)
Lemma LoadAdaptersFromConfig_loop_repeated
    (model_path : string) (pre post : list (string * string)) (n f : string)
    (s : gmap string LoraAdapter * World) :
  n ∈ pre.*1 →
  ∃ e s', LoadAdaptersFromConfig_loop create_ort_value model_path (pre ++ (n, f) :: post) s = (Throw e, s') ∧
    ∀ s1, LoadAdaptersFromConfig_loop create_ort_value model_path pre s = (Ok tt, s1) →
          e = DuplicateAdapterName n ∧ s' = s1.
Proof.
  intros Hn. rewrite LoadAdaptersFromConfig_loop_app.
  destruct s as [adapters w].
  destruct (LoadAdaptersFromConfig_loop create_ort_value model_path pre (adapters, w)) as [[[]|e] [adapters1 w1]] eqn:Hpre.
  - apply LoadAdaptersFromConfig_loop_ok in Hpre as (_ & _ & Hin & _).
    destruct (Hin n Hn) as (a & Ha & _).
    rewrite LoadAdaptersFromConfig_loop_cons, Ha.
    eexists _, _. split; [reflexivity|]. by intros s1 [= <-].
  - eexists _, _. split; [reflexivity|]. by intros s1 [=].
Qed.

(** C8 (as amended): a bulk load of a batch that repeats an adapter name
    fails and leaves the registry as it was, so that a name absent before
    the call is still unknown to [Get] afterwards.  The failure is
    [DuplicateAdapterName] whenever the entries that precede the repeated
    one all load; in that case the repeated entry causes no further call
    to the file system or the validators. *)
Theorem LoadAdaptersFromConfig_repeated_name
    (model_path : string) (pre post : list (string * string)) (n f : string)
    (c : LoraAdapterContainer) (w : World) :
  n ∈ pre.*1 →
  let out := LoadAdaptersFromConfig create_ort_value model_path
               (pre ++ (n, f) :: post) (c, w) in
  let before := LoadAdaptersFromConfig_loop create_ort_value model_path pre (∅, w) in
  (∃ e, out.1 = Throw e) ∧
  out.2.1 = c ∧
  (∀ name, Get name out.2.1 = Get name c) ∧
  (adapters_ c = ∅ → Get n out.2.1 = Throw (UnknownAdapter n)) ∧
  (before.1 = Ok tt →
     out.1 = Throw (DuplicateAdapterName n) ∧ out.2.2 = before.2.2).
Proof.
  intros Hn out before. subst out before.
  rewrite LoadAdaptersFromConfig_run.
  destruct (LoadAdaptersFromConfig_loop_repeated model_path pre post n f (∅, w) Hn)
    as (e & [adapters' w'] & Hrun & Hdup).
  rewrite Hrun. simpl.
  split; [by exists e|]. split; [done|]. split; [done|]. split.
  - intros Hempty. unfold Get. by rewrite Hempty, lookup_empty.
  - destruct (LoadAdaptersFromConfig_loop create_ort_value model_path pre (∅, w)) as [[[]|e0] [adapters1 w1]]; [|done].
    intros _. destruct (Hdup _ eq_refl) as [-> Hstate]. by inversion Hstate.
Qed.

(** C10: when a bulk load returns, the registry holds an adapter for a
    name exactly when the config declares that name, each under its own
    name; an adapter registered before the call under a name the config
    does not declare is gone. *)
Theorem LoadAdaptersFromConfig_replaces_registry
    (model_path : string) (config : list (string * string))
    (c : LoraAdapterContainer) (w : World) :
  let out := LoadAdaptersFromConfig create_ort_value model_path config (c, w) in
  out.1 = Ok tt →
  (∀ n, is_Some (adapters_ out.2.1 !! n) ↔ n ∈ config.*1) ∧
  (∀ n a, adapters_ out.2.1 !! n = Some a → name_ a = n) ∧
  (∀ n, is_Some (adapters_ c !! n) → n ∉ config.*1 →
        adapters_ out.2.1 !! n = None).
Proof.
  intros out. subst out. rewrite LoadAdaptersFromConfig_run.
  destruct (LoadAdaptersFromConfig_loop create_ort_value model_path config (∅, w)) as [[[]|e] [adapters w1]] eqn:Hloop;
    [|done].
  intros _. simpl.
  apply LoadAdaptersFromConfig_loop_ok in Hloop as (_ & _ & Hin & Hout).
  assert (∀ n, is_Some (adapters !! n) ↔ n ∈ config.*1) as Hdom.
  { intros n. split.
    - intros Hsome. destruct (decide (n ∈ config.*1)) as [|Hn]; [done|].
      rewrite (Hout n Hn), lookup_empty in Hsome. by destruct Hsome.
    - intros Hn. destruct (Hin n Hn) as (a & -> & _). by eexists. }
  split; [exact Hdom|]. split.
  - intros n a Ha.
    assert (n ∈ config.*1) as Hn by (apply Hdom; by eexists).
    destruct (Hin n Hn) as (a' & Ha' & Hname). congruence.
  - intros n _ Hn. by rewrite (Hout n Hn), lookup_empty.
Qed.

(** C2 (as amended): a bulk load does not consult the adapters already
    registered.  On a registry that already holds an adapter named [n],
    a batch that declares [n] has the outcome it has on an empty registry:
    no [DuplicateAdapterName] is raised for [n].  When the batch fails the
    registry is left as it was; when it returns the registry is the batch's
    own map, in which [n] names the newly loaded adapter. *)
Theorem LoadAdaptersFromConfig_ignores_registered
    (model_path : string) (config : list (string * string)) (n : string)
    (c : LoraAdapterContainer) (w : World) :
  is_Some (adapters_ c !! n) →
  n ∈ config.*1 →
  let out := LoadAdaptersFromConfig create_ort_value model_path config (c, w) in
  let clean := LoadAdaptersFromConfig create_ort_value model_path config
                 ({| adapters_ := ∅ |}, w) in
  out.1 = clean.1 ∧
  out.2.2 = clean.2.2 ∧
  match out.1 with
  | Throw _ => out.2.1 = c
  | Ok _ =>
      out.2.1 = clean.2.1 ∧
      ∃ a, adapters_ out.2.1 !! n = Some a ∧ name_ a = n
  end.
Proof.
  intros _ Hn out clean. subst out clean.
  rewrite !LoadAdaptersFromConfig_run.
  destruct (LoadAdaptersFromConfig_loop create_ort_value model_path config (∅, w)) as [[[]|e] [adapters w1]] eqn:Hloop;
    simpl; [|done].
  split; [done|]. split; [done|]. split; [done|].
  apply LoadAdaptersFromConfig_loop_ok in Hloop as (_ & _ & Hin & _).
  exact (Hin n Hn).
Qed.

End Registry.

(** A batch that names "a" twice, loaded into an empty registry: the first
    entry loads, the second is refused before its file is opened. *)
Lemma LoadAdaptersFromConfig_repeated_name_witness :
  (LoadAdaptersFromConfig (ext := Demo.externals)
     CreateOrtValueOverFlatBufferLoraParameter "m"
     [("a", "ab.bin"); ("a", "empty.bin")] (Demo.empty_registry, Demo.world0)).1
    = Throw (DuplicateAdapterName "a")
  ∧ Get "a" (LoadAdaptersFromConfig (ext := Demo.externals)
       CreateOrtValueOverFlatBufferLoraParameter "m"
       [("a", "ab.bin"); ("a", "empty.bin")] (Demo.empty_registry, Demo.world0)).2.1
    = Throw (UnknownAdapter "a")
  ∧ trace (LoadAdaptersFromConfig (ext := Demo.externals)
       CreateOrtValueOverFlatBufferLoraParameter "m"
       [("a", "ab.bin"); ("a", "empty.bin")] (Demo.empty_registry, Demo.world0)).2.2
    = load_events "m/ab.bin".
Proof.
  destruct (LoadAdaptersFromConfig_repeated_name (ext := Demo.externals)
              CreateOrtValueOverFlatBufferLoraParameter "m"
              [("a", "ab.bin")] [] "a" "empty.bin" Demo.empty_registry Demo.world0)
    as (_ & _ & _ & Hget & Hdup); [constructor|].
  destruct (Hdup eq_refl) as [Hthrow Hworld].
  split; [exact Hthrow|]. split; [exact (Hget eq_refl)|].
  exact (f_equal trace Hworld).
Defined.

(** C8 as written fails when an entry before the repeated one cannot be
    loaded: the batch then fails with that entry's error, here an I/O
    error, and not with [DuplicateAdapterName]. *)
Lemma LoadAdaptersFromConfig_repeated_name_counterexample :
  (LoadAdaptersFromConfig (ext := Demo.externals)
     CreateOrtValueOverFlatBufferLoraParameter "m"
     [("a", "missing.bin"); ("a", "missing.bin")]
     (Demo.empty_registry, Demo.world0)).1
    = Throw (IOError Opening "m/missing.bin")
  ∧ (LoadAdaptersFromConfig (ext := Demo.externals)
     CreateOrtValueOverFlatBufferLoraParameter "m"
     [("a", "missing.bin"); ("a", "missing.bin")]
     (Demo.empty_registry, Demo.world0)).1
    ≠ Throw (DuplicateAdapterName "a").
Proof. split; [reflexivity|]. vm_compute. discriminate. Qed.

(** A registry holding "a" replaced by a batch that declares only "b". *)
Lemma LoadAdaptersFromConfig_replaces_registry_witness :
  (LoadAdaptersFromConfig (ext := Demo.externals)
     CreateOrtValueOverFlatBufferLoraParameter "m"
     [("b", "ab.bin")] (Demo.registry_with_a, Demo.world0)).1 = Ok tt
  ∧ is_Some (adapters_ (LoadAdaptersFromConfig (ext := Demo.externals)
       CreateOrtValueOverFlatBufferLoraParameter "m"
       [("b", "ab.bin")] (Demo.registry_with_a, Demo.world0)).2.1 !! "b")
  ∧ adapters_ (LoadAdaptersFromConfig (ext := Demo.externals)
       CreateOrtValueOverFlatBufferLoraParameter "m"
       [("b", "ab.bin")] (Demo.registry_with_a, Demo.world0)).2.1 !! "a"
    = None.
Proof.
  split; [reflexivity|].
  destruct (LoadAdaptersFromConfig_replaces_registry (ext := Demo.externals)
              CreateOrtValueOverFlatBufferLoraParameter "m"
              [("b", "ab.bin")] Demo.registry_with_a Demo.world0 eq_refl)
    as (Hdom & _ & Hgone).
  split.
  - apply Hdom. constructor.
  - apply Hgone.
    + eexists. reflexivity.
    + intros Hin. inversion Hin as [|? ? ? Hnil]; subst. inversion Hnil.
Defined.

(** A registry holding "a" and a batch that declares "a" again. *)
Lemma LoadAdaptersFromConfig_ignores_registered_witness :
  (LoadAdaptersFromConfig (ext := Demo.externals)
     CreateOrtValueOverFlatBufferLoraParameter "m"
     [("a", "ab.bin")] (Demo.registry_with_a, Demo.world0)).1
  = (LoadAdaptersFromConfig (ext := Demo.externals)
       CreateOrtValueOverFlatBufferLoraParameter "m"
       [("a", "ab.bin")] (Demo.empty_registry, Demo.world0)).1
  ∧ (LoadAdaptersFromConfig (ext := Demo.externals)
       CreateOrtValueOverFlatBufferLoraParameter "m"
       [("a", "missing.bin")] (Demo.registry_with_a, Demo.world0)).2.1
    = Demo.registry_with_a.
Proof.
  split.
  - apply (LoadAdaptersFromConfig_ignores_registered (ext := Demo.externals)
             CreateOrtValueOverFlatBufferLoraParameter "m"
             [("a", "ab.bin")] "a" Demo.registry_with_a Demo.world0).
    + eexists. reflexivity.
    + constructor.
  - destruct (LoadAdaptersFromConfig_ignores_registered (ext := Demo.externals)
                CreateOrtValueOverFlatBufferLoraParameter "m"
                [("a", "missing.bin")] "a" Demo.registry_with_a Demo.world0)
      as (_ & _ & Hkept).
    + eexists. reflexivity.
    + constructor.
    + exact Hkept.
Defined.

(** C2 as written fails: a registry that holds "a" accepts a batch that
    declares "a".  The file of that entry is opened and checked, the call
    returns, and the adapter registered under "a" has been replaced. *)
Lemma LoadAdaptersFromConfig_registered_name_counterexample :
  is_Some (adapters_ Demo.registry_with_a !! "a")
  ∧ (LoadAdaptersFromConfig (ext := Demo.externals)
       CreateOrtValueOverFlatBufferLoraParameter "m"
       [("a", "ab.bin")] (Demo.registry_with_a, Demo.world0)).1 = Ok tt
  ∧ trace (LoadAdaptersFromConfig (ext := Demo.externals)
       CreateOrtValueOverFlatBufferLoraParameter "m"
       [("a", "ab.bin")] (Demo.registry_with_a, Demo.world0)).2.2
    = load_events "m/ab.bin"
  ∧ (LoadAdaptersFromConfig (ext := Demo.externals)
       CreateOrtValueOverFlatBufferLoraParameter "m"
       [("a", "ab.bin")] (Demo.registry_with_a, Demo.world0)).2.1
    ≠ Demo.registry_with_a.
Proof.
  split; [eexists; reflexivity|]. split; [reflexivity|]. split; [reflexivity|].
  intros Hsame.
  apply (f_equal (λ c, length ∘ parameters_ <$> adapters_ c !! "a")) in Hsame.
  vm_compute in Hsame. discriminate.
Qed.

(** * Further properties of the unit *)

(** ** More on the format store *)

Section FormatStoreStates.
Context `{ext : Externals}.

(** X1: [Load] returns exactly when the file can be read and its bytes pass
    the signature check, the schema verification and the version check; the
    holder then owns those bytes and exposes their view. *)
Theorem Load_returns_iff_valid
    (file_name : string) (h : BinaryFormatHolder) (w : World) :
  let out := Load file_name (h, w) in
  out.1 = Ok tt ↔
  ∃ bytes,
    open_and_read file_name = ReadOk bytes ∧
    IsGenAiLoraFormatModelBytes bytes = true ∧
    VerifyParametersBuffer bytes = true ∧
    IsLoraFormatVersionSupported (fbs_version (GetParameters bytes)) = true ∧
    out.2.1 = {| buffer_ := bytes; bfh_parameters_ := Some (GetParameters bytes) |}.
Proof.
  intros out. subst out. split.
  - intros Hok.
    destruct (Load file_name (h, w)) as [r [h' w']] eqn:Hload. simpl in Hok. subst r.
    apply Load_ok_view in Hload as (bytes & ? & ? & ? & ? & -> & _).
    by exists bytes.
  - intros (bytes & Hread & Hmagic & Hschema & Hversion & _).
    by rewrite Load_run, Hread, Hmagic, Hschema, Hversion.
Qed.




End FormatStoreStates.



(** ** More on placeholders *)

(** X5: [CreateEmptyInput] fails exactly on a reference of rank below 2
    (a scalar or a vector), always with the shape error, and then allocates
    nothing. *)
Theorem CreateEmptyInput_fails_iff_low_rank
    (model : Model) (original : OrtValue) (w : World) :
  let out := CreateEmptyInput model original w in
  ((length (GetShape original) < 2)%nat → out = (Throw InvalidShape, w)) ∧
  (∀ e, out.1 = Throw e → (length (GetShape original) < 2)%nat ∧ e = InvalidShape).
Proof.
  intros out. subst out. split; [apply CreateEmptyInput_low_rank|].
  intros e Hthrow.
  destruct (decide (length (GetShape original) < 2)%nat) as [Hlow|Hrank].
  - rewrite CreateEmptyInput_low_rank in Hthrow by done.
    split; [done|]. by inversion Hthrow.
  - destruct (last_two_split (GetShape original)) as (prefix & penal & last & Hs);
      [lia|].
    by rewrite (CreateEmptyInput_unfold _ _ _ _ _ _ Hs) in Hthrow.
Qed.

Lemma CreateEmptyInput_fails_iff_low_rank_witness :
  CreateEmptyInput Demo.cuda_model (Demo.tensor [] host_memory) Demo.world0
    = (Throw InvalidShape, Demo.world0)
  ∧ CreateEmptyInput Demo.cuda_model (Demo.tensor [32]%Z host_memory) Demo.world0
    = (Throw InvalidShape, Demo.world0).
Proof.
  split.
  - apply (CreateEmptyInput_fails_iff_low_rank Demo.cuda_model
             (Demo.tensor [] host_memory) Demo.world0). simpl. lia.
  - apply (CreateEmptyInput_fails_iff_low_rank Demo.cuda_model
             (Demo.tensor [32]%Z host_memory) Demo.world0). simpl. lia.
Defined.

(** X6: the placeholder is a new tensor object without data bytes, placed
    with the memory info of the model's device allocator, wherever the
    reference tensor lives; nothing else in the world changes. *)
Theorem CreateEmptyInput_placement
    (model : Model) (original : OrtValue) (w : World) :
  (2 ≤ length (GetShape original))%nat →
  ∃ p,
    CreateEmptyInput model original w = (Ok p, allocated w) ∧
    addr p = fresh (live w) ∧
    (addr p ∉ live w) ∧
    GetTensorData (deref p) = [] ∧
    GetTensorMemoryInfo (deref p) = GetInfo (allocator_device_ model).
Proof.
  intros Hrank.
  destruct (last_two_split _ Hrank) as (prefix & penal & last & Hs).
  rewrite (CreateEmptyInput_unfold model original w prefix penal last Hs).
  unfold CreateTensor, make_shared. eexists. split; [reflexivity|]. simpl.
  split; [done|]. split; [apply is_fresh|]. done.
Qed.

Lemma CreateEmptyInput_placement_witness :
  ∃ p,
    CreateEmptyInput Demo.cuda_model (Demo.tensor [8; 4]%Z host_memory) Demo.world0
      = (Ok p, allocated Demo.world0) ∧
    GetTensorData (deref p) = [] ∧
    GetTensorMemoryInfo (deref p) = Demo.gpu_memory.
Proof.
  destruct (CreateEmptyInput_placement Demo.cuda_model
              (Demo.tensor [8; 4]%Z host_memory) Demo.world0)
    as (p & Hrun & _ & _ & Hdata & Hmem); [simpl; lia|].
  exists p. split; [exact Hrun|]. split; [exact Hdata|exact Hmem].
Defined.

Lemma to_size_t_nonneg (z : Z) : (0 ≤ to_size_t z)%Z.
Proof. unfold to_size_t. apply Z.mod_pos_bound. lia. Qed.

(** X7: a placeholder made from a placeholder has the shape of the first
    one: the dimension that was zeroed is the one that is zeroed again. *)
Theorem CreateEmptyInput_shape_idempotent
    (model model' : Model) (original : OrtValue) (w w' w1 : World)
    (p : shared_ptr OrtValue) :
  CreateEmptyInput model original w = (Ok p, w1) →
  result_shape (CreateEmptyInput model' (deref p) w') = Some (GetShape (deref p)).
Proof.
  intros Hfirst.
  destruct (decide (length (GetShape original) < 2)%nat) as [Hlow|Hrank].
  { by rewrite CreateEmptyInput_low_rank in Hfirst. }
  destruct (last_two_split (GetShape original)) as (prefix & penal & last & Hs);
    [lia|].
  rewrite (CreateEmptyInput_unfold _ _ _ _ _ _ Hs) in Hfirst.
  unfold CreateTensor, make_shared in Hfirst. inversion Hfirst; subst p w1; clear Hfirst.
  simpl deref. simpl GetShape.
  pose proof (to_size_t_nonneg last) as Hlast.
  pose proof (to_size_t_nonneg penal) as Hpenal.
  destruct (to_size_t last <? to_size_t penal)%Z eqn:Hcmp.
  - apply Z.ltb_lt in Hcmp.
    erewrite (CreateEmptyInput_unfold model' _ w' prefix penal 0%Z); [|reflexivity].
    replace (to_size_t 0 <? to_size_t penal)%Z with true; [done|].
    symmetry. apply Z.ltb_lt. change (to_size_t 0) with 0%Z. lia.
  - apply Z.ltb_ge in Hcmp.
    erewrite (CreateEmptyInput_unfold model' _ w' prefix 0%Z last); [|reflexivity].
    replace (to_size_t last <? to_size_t 0)%Z with false; [done|].
    symmetry. apply Z.ltb_ge. change (to_size_t 0) with 0%Z. lia.
Qed.

Lemma CreateEmptyInput_shape_idempotent_witness :
  result_shape
    (CreateEmptyInput Demo.cpu_model
       {| GetShape := [0; 8]%Z; GetElementType := 1%Z; GetTensorData := [];
          GetTensorMemoryInfo := Demo.gpu_memory |} Demo.world0)
    = Some [0; 8]%Z.
Proof.
  apply (CreateEmptyInput_shape_idempotent Demo.cuda_model Demo.cpu_model
           (Demo.tensor [4; 8]%Z host_memory) Demo.world0 Demo.world0
           (allocated Demo.world0)
           (mk_shared (fresh (live Demo.world0))
              {| GetShape := [0; 8]%Z; GetElementType := 1%Z; GetTensorData := [];
                 GetTensorMemoryInfo := Demo.gpu_memory |})).
  reflexivity.
Defined.

(** ** More on device placement *)

(** X8: the copy routine is consulted only for a host-resident tensor on a
    target that is not the CPU.  In every other situation the outcome does
    not depend on the copy routine and the world is left as it was: the
    supplied tensor itself is returned, or the call is refused with an
    error that carries the device type of the model. *)
Theorem MakeDeviceCopyIfNeeded_copies_only_host_tensors
    (copy1 copy2 : OrtValue → Model → M World (shared_ptr OrtValue))
    (model : Model) (param : LoraParam) (w : World) :
  device_type_ model = CPU ∨
  GetDeviceType (GetTensorMemoryInfo (deref (ort_user_supplied_value_ param)))
    ≠ OrtMemoryInfoDeviceType_CPU →
  let out := MakeDeviceCopyIfNeeded copy1 model param w in
  out = MakeDeviceCopyIfNeeded copy2 model param w ∧
  out.2 = w ∧
  (out.1 = Ok (ort_user_supplied_value_ param) ∨
   out.1 = Throw (UnsupportedDevicePlacement (device_type_ model))).
Proof.
  intros Hcase out. subst out. unfold MakeDeviceCopyIfNeeded.
  destruct (decide (device_type_ model ≠ CPU)) as [Hne|_]; [|by auto].
  destruct Hcase as [Hcpu|Hres]; [done|].
  destruct (decide (device_type_ model = CUDA ∧ _)); [by auto|].
  destruct (decide (_ ≠ OrtMemoryInfoDeviceType_CPU)); [by auto|done].
Qed.

Lemma MakeDeviceCopyIfNeeded_copies_only_host_tensors_witness :
  MakeDeviceCopyIfNeeded CopyToDevice Demo.cuda_model
    (Demo.supplied {| GetDeviceType := OrtMemoryInfoDeviceType_FPGA |}) Demo.world0
  = MakeDeviceCopyIfNeeded (λ _ _, throw InvalidShape) Demo.cuda_model
      (Demo.supplied {| GetDeviceType := OrtMemoryInfoDeviceType_FPGA |}) Demo.world0.
Proof.
  apply (MakeDeviceCopyIfNeeded_copies_only_host_tensors CopyToDevice
           (λ _ _, throw InvalidShape) Demo.cuda_model
           (Demo.supplied {| GetDeviceType := OrtMemoryInfoDeviceType_FPGA |})
           Demo.world0).
  right. discriminate.
Defined.

(** ** More on the adapter *)

Section AdapterStates.
Context `{ext : Externals}.
Variable create_ort_value : fbs_Tensor → M World (string * shared_ptr OrtValue).

Lemma Load_buffer (file_name : string) (bytes : list Byte.byte)
    (h : BinaryFormatHolder) (w : World) :
  open_and_read file_name = ReadOk bytes →
  buffer_ (Load file_name (h, w)).2.1 = bytes.
Proof.
  intros Hread. rewrite Load_run, Hread.
  destruct (IsGenAiLoraFormatModelBytes bytes); simpl; [|done].
  destruct (VerifyParametersBuffer bytes); simpl; [|done].
  by destruct (IsLoraFormatVersionSupported _).
Qed.

(** The extraction loop over a concatenation. *)
Lemma LoadParametersFromFlatBuffer_loop_app
    (pre rest : list fbs_Tensor) (parameters : list LoraParam) (w : World) :
  LoadParametersFromFlatBuffer_loop create_ort_value (pre ++ rest) parameters w =
    match LoadParametersFromFlatBuffer_loop create_ort_value pre parameters w with
    | (Ok ps, w1) => LoadParametersFromFlatBuffer_loop create_ort_value rest ps w1
    | (Throw e, w1) => (Throw e, w1)
    end.
Proof.
  revert parameters w. induction pre as [|t pre IH]; intros parameters w; [done|].
  simpl. unfold bind. destruct (create_ort_value t w) as [[p|e] w1]; [apply IH|done].
Qed.

(** X9: the format holder of the adapter always ends up as [Load] leaves
    it, also when the call fails: after a failed reload of a readable file
    the adapter holds its old parameter list next to the bytes of the new
    file.  A failure of [Load] is passed on as it is, and the extractor is
    not run. *)
Theorem LoadParametersFromFlatBuffer_holder_follows_Load
    (file_name : string) (a : LoraAdapter) (w : World) :
  let out := LoadParametersFromFlatBuffer create_ort_value file_name (a, w) in
  let loaded := Load file_name (format_holder_ a, w) in
  format_holder_ out.2.1 = loaded.2.1 ∧
  (∀ bytes, open_and_read file_name = ReadOk bytes →
     buffer_ (format_holder_ out.2.1) = bytes) ∧
  (∀ e, loaded.1 = Throw e → out.1 = Throw e ∧ out.2.2 = loaded.2.2).
Proof.
  intros out loaded. subst out loaded.
  assert (format_holder_
            (LoadParametersFromFlatBuffer create_ort_value file_name (a, w)).2.1
          = (Load file_name (format_holder_ a, w)).2.1) as Hholder.
  { rewrite LoadParametersFromFlatBuffer_run.
    destruct (Load file_name (format_holder_ a, w)) as [[[]|e] [h w1]]; [|done].
    destruct (bfh_parameters_ h); [|done].
    by destruct (LoadParametersFromFlatBuffer_loop _ _ _ _) as [[ps|e] w2]. }
  split; [exact Hholder|]. split.
  - intros bytes Hread. rewrite Hholder. by apply Load_buffer.
  - intros e. rewrite LoadParametersFromFlatBuffer_run.
    destruct (Load file_name (format_holder_ a, w)) as [[[]|e'] [h w1]]; [done|].
    simpl. by intros [= ->].
Qed.

(** X10: the records are extracted in file order and the first record the
    extractor refuses ends the call with the extractor's error: the records
    after it are never looked at, and the adapter keeps its parameter
    list. *)
Theorem LoadParametersFromFlatBuffer_stops_at_first_failure
    (file_name : string) (bytes : list Byte.byte) (a : LoraAdapter) (w : World)
    (pre post : list fbs_Tensor) (t : fbs_Tensor)
    (ps : list LoraParam) (w1 w2 : World) (e : Error) :
  open_and_read file_name = ReadOk bytes →
  IsGenAiLoraFormatModelBytes bytes = true →
  VerifyParametersBuffer bytes = true →
  IsLoraFormatVersionSupported (fbs_version (GetParameters bytes)) = true →
  fbs_parameters (GetParameters bytes) = pre ++ t :: post →
  LoadParametersFromFlatBuffer_loop create_ort_value pre []
    (log w (load_events file_name)) = (Ok ps, w1) →
  create_ort_value t w1 = (Throw e, w2) →
  let out := LoadParametersFromFlatBuffer create_ort_value file_name (a, w) in
  out.1 = Throw e ∧ out.2.2 = w2 ∧ parameters_ out.2.1 = parameters_ a.
Proof.
  intros Hread Hmagic Hschema Hversion Hrecords Hpre Hfail out. subst out.
  rewrite LoadParametersFromFlatBuffer_run, Load_run, Hread, Hmagic, Hschema, Hversion.
  simpl. rewrite Hrecords, LoadParametersFromFlatBuffer_loop_app.
  unfold load_events in Hpre. rewrite Hpre. simpl. unfold bind. rewrite Hfail.
  done.
Qed.

(** A load that returns has read a file that passes the checks, and the
    adapter's holder owns it. *)
Lemma LoadParametersFromFlatBuffer_ok_holder
    (file_name : string) (a a' : LoraAdapter) (w w' : World) :
  LoadParametersFromFlatBuffer create_ort_value file_name (a, w) = (Ok tt, (a', w')) →
  ∃ bytes,
    open_and_read file_name = ReadOk bytes ∧
    IsGenAiLoraFormatModelBytes bytes = true ∧
    VerifyParametersBuffer bytes = true ∧
    IsLoraFormatVersionSupported (fbs_version (GetParameters bytes)) = true ∧
    format_holder_ a' =
      {| buffer_ := bytes; bfh_parameters_ := Some (GetParameters bytes) |} ∧
    LoadParametersFromFlatBuffer_loop create_ort_value
      (fbs_parameters (GetParameters bytes)) [] (log w (load_events file_name))
      = (Ok (parameters_ a'), w').
Proof.
  rewrite LoadParametersFromFlatBuffer_run.
  destruct (Load file_name (format_holder_ a, w)) as [[[]|e] [h w1]] eqn:Hload;
    [|done].
  apply Load_ok_view in Hload as (bytes & Hread & Hmagic & Hschema & Hversion & -> & ->).
  simpl.
  destruct (LoadParametersFromFlatBuffer_loop _ _ _ _) as [[ps|e] w2] eqn:Hloop;
    [|done].
  intros Heq. inversion Heq; subst. by exists bytes.
Qed.

End AdapterStates.

(** The file with records of ranks 2, 1, 2: the second record is refused
    and the third is never extracted, so one tensor has been allocated
    beside the one the world already held. *)
Lemma LoadParametersFromFlatBuffer_stops_at_first_failure_witness :
  (LoadParametersFromFlatBuffer (ext := Demo.externals)
     CreateOrtValueOverFlatBufferLoraParameter "m/rank1.bin"
     (Demo.old_adapter, Demo.world0)).1 = Throw InvalidShape
  ∧ (LoadParametersFromFlatBuffer (ext := Demo.externals)
       CreateOrtValueOverFlatBufferLoraParameter "m/rank1.bin"
       (Demo.old_adapter, Demo.world0)).2.2
    = allocated (log Demo.world0 (load_events "m/rank1.bin"))
  ∧ parameters_ (LoadParametersFromFlatBuffer (ext := Demo.externals)
       CreateOrtValueOverFlatBufferLoraParameter "m/rank1.bin"
       (Demo.old_adapter, Demo.world0)).2.1 = parameters_ Demo.old_adapter.
Proof.
  eapply (LoadParametersFromFlatBuffer_stops_at_first_failure (ext := Demo.externals)
            CreateOrtValueOverFlatBufferLoraParameter "m/rank1.bin"
            [Byte.x47; Byte.x56; Byte.x01; Byte.x02] Demo.old_adapter Demo.world0
            [Demo.lora_A] [Demo.lora_B] Demo.flat);
    reflexivity.
Defined.

(** After a failed reload the holder has the bytes of the new file. *)
Lemma LoadParametersFromFlatBuffer_holder_follows_Load_witness :
  buffer_ (format_holder_ (LoadParametersFromFlatBuffer (ext := Demo.externals)
     CreateOrtValueOverFlatBufferLoraParameter "m/rank1.bin"
     (Demo.old_adapter, Demo.world0)).2.1)
    = [Byte.x47; Byte.x56; Byte.x01; Byte.x02].
Proof.
  destruct (LoadParametersFromFlatBuffer_holder_follows_Load (ext := Demo.externals)
              CreateOrtValueOverFlatBufferLoraParameter "m/rank1.bin"
              Demo.old_adapter Demo.world0) as (_ & Hbuffer & _).
  exact (Hbuffer _ eq_refl).
Defined.

(** ** More on the registry *)

Section RegistryRuns.
Context `{ext : Externals}.
Variable create_ort_value : fbs_Tensor → M World (string * shared_ptr OrtValue).

(** Where the adapters of a returned loop come from. *)
Lemma LoadAdaptersFromConfig_loop_provenance
    (model_path : string) (entries : list (string * string))
    (adapters adapters' : gmap string LoraAdapter) (w w' : World) :
  LoadAdaptersFromConfig_loop create_ort_value model_path entries (adapters, w)
    = (Ok tt, (adapters', w')) →
  ∀ n a, adapters' !! n = Some a →
    adapters !! n = Some a ∨
    ∃ f bytes,
      (n, f) ∈ entries ∧
      open_and_read (path_append model_path f) = ReadOk bytes ∧
      IsGenAiLoraFormatModelBytes bytes = true ∧
      VerifyParametersBuffer bytes = true ∧
      IsLoraFormatVersionSupported (fbs_version (GetParameters bytes)) = true ∧
      format_holder_ a =
        {| buffer_ := bytes; bfh_parameters_ := Some (GetParameters bytes) |}.
Proof.
  revert adapters w.
  induction entries as [|[n0 f0] entries IH]; intros adapters w.
  - simpl. unfold ret. intros [= <- <-] n a Ha. by left.
  - rewrite LoadAdaptersFromConfig_loop_cons.
    destruct (adapters !! n0) eqn:Hfree; [done|].
    destruct (LoadParametersFromFlatBuffer _ _ _) as [[[]|e] [a0 w1]] eqn:Hload;
      [|done].
    intros Hrest n a Ha.
    destruct (IH _ _ Hrest n a Ha) as [Hold|(f & bytes & Hin & Hfile)].
    + destruct (decide (n0 = n)) as [->|Hne].
      * rewrite lookup_insert_eq in Hold. injection Hold as ->.
        apply LoadParametersFromFlatBuffer_ok_holder in Hload
          as (bytes & Hread & Hmagic & Hschema & Hversion & Hholder & _).
        right. exists f0, bytes. split; [by left|]. done.
      * rewrite lookup_insert_ne in Hold by done. by left.
    + right. exists f, bytes. split; [by right|]. done.
Qed.

(** X11: every adapter in the registry after a bulk load that returned
    comes from the config: its name is declared there with a file which,
    under the model path, could be read and passed the signature, schema and
    version checks, and the adapter's holder owns the bytes of that file. *)
Theorem LoadAdaptersFromConfig_adapters_come_from_files
    (model_path : string) (config : list (string * string))
    (c : LoraAdapterContainer) (w : World) :
  let out := LoadAdaptersFromConfig create_ort_value model_path config (c, w) in
  out.1 = Ok tt →
  ∀ n a, adapters_ out.2.1 !! n = Some a →
    ∃ f bytes,
      (n, f) ∈ config ∧
      open_and_read (path_append model_path f) = ReadOk bytes ∧
      IsGenAiLoraFormatModelBytes bytes = true ∧
      VerifyParametersBuffer bytes = true ∧
      IsLoraFormatVersionSupported (fbs_version (GetParameters bytes)) = true ∧
      format_holder_ a =
        {| buffer_ := bytes; bfh_parameters_ := Some (GetParameters bytes) |}.
Proof.
  intros out. subst out. rewrite LoadAdaptersFromConfig_run.
  destruct (LoadAdaptersFromConfig_loop _ _ _ _) as [[[]|e] [adapters w1]] eqn:Hloop;
    [|done].
  intros _ n a Ha. simpl in Ha.
  destruct (LoadAdaptersFromConfig_loop_provenance _ _ _ _ _ _ Hloop n a Ha)
    as [Hempty|Hfile]; [|exact Hfile].
  by rewrite lookup_empty in Hempty.
Qed.

(** X12: the first entry whose load fails decides the outcome of the batch:
    the call throws that entry's error, the entries after it cause no
    further effect, and the registry is the one from before the call. *)
Theorem LoadAdaptersFromConfig_first_failure_decides
    (model_path : string) (pre post : list (string * string)) (n f : string)
    (c : LoraAdapterContainer) (w w1 w2 : World)
    (adapters : gmap string LoraAdapter) (a : LoraAdapter) (e : Error) :
  n ∉ pre.*1 →
  LoadAdaptersFromConfig_loop create_ort_value model_path pre (∅, w)
    = (Ok tt, (adapters, w1)) →
  LoadParametersFromFlatBuffer create_ort_value (path_append model_path f)
    (SetName n LoraAdapter_default, w1) = (Throw e, (a, w2)) →
  LoadAdaptersFromConfig create_ort_value model_path (pre ++ (n, f) :: post) (c, w)
    = (Throw e, (c, w2)).
Proof.
  intros Hn Hpre Hfail.
  rewrite LoadAdaptersFromConfig_run, LoadAdaptersFromConfig_loop_app, Hpre.
  rewrite LoadAdaptersFromConfig_loop_cons.
  apply LoadAdaptersFromConfig_loop_ok in Hpre as (_ & _ & _ & Hout).
  rewrite (Hout n Hn), lookup_empty, Hfail. reflexivity.
Qed.

(** The extraction loop, and so a whole load, logs nothing beyond the
    events of [Load] when the extractor logs nothing. *)
Lemma LoadParametersFromFlatBuffer_loop_trace
    (tensors : list fbs_Tensor) (parameters : list LoraParam) (w : World) :
  (∀ t w0, trace (create_ort_value t w0).2 = trace w0) →
  trace (LoadParametersFromFlatBuffer_loop create_ort_value tensors parameters w).2
    = trace w.
Proof.
  intros Hquiet. revert parameters w.
  induction tensors as [|t tensors IH]; intros parameters w; [done|].
  simpl. unfold bind. specialize (Hquiet t w).
  destruct (create_ort_value t w) as [[p|e] w1]; simpl in *; [|done].
  by rewrite IH.
Qed.

Lemma LoadAdaptersFromConfig_loop_trace
    (model_path : string) (entries : list (string * string))
    (adapters adapters' : gmap string LoraAdapter) (w w' : World) :
  (∀ t w0, trace (create_ort_value t w0).2 = trace w0) →
  LoadAdaptersFromConfig_loop create_ort_value model_path entries (adapters, w)
    = (Ok tt, (adapters', w')) →
  trace w' = trace w ++ batch_events model_path entries.
Proof.
  intros Hquiet. revert adapters w.
  induction entries as [|[n f] entries IH]; intros adapters w.
  - simpl. unfold ret. intros [= <- <-]. unfold batch_events. simpl.
    by rewrite app_nil_r.
  - rewrite LoadAdaptersFromConfig_loop_cons.
    destruct (adapters !! n); [done|].
    destruct (LoadParametersFromFlatBuffer _ _ _) as [[[]|e] [a w1]] eqn:Hload;
      [|done].
    intros Hrest. apply IH in Hrest. rewrite Hrest.
    apply LoadParametersFromFlatBuffer_ok_holder in Hload
      as (bytes & _ & _ & _ & _ & _ & Hloop).
    pose proof (LoadParametersFromFlatBuffer_loop_trace
                  (fbs_parameters (GetParameters bytes)) []
                  (log w (load_events (path_append model_path f))) Hquiet) as Htrace.
    rewrite Hloop in Htrace. simpl in Htrace. rewrite Htrace.
    unfold batch_events. simpl. by rewrite <- app_assoc.
Qed.

(** X13: when the extractor itself logs nothing, a bulk load that returns
    has opened the files of the config one after the other in the order of
    the config, each under the model path and each exactly once, and has run
    the three checks on each file before opening the next. *)
Theorem LoadAdaptersFromConfig_opens_files_in_order
    (model_path : string) (config : list (string * string))
    (c : LoraAdapterContainer) (w : World) :
  (∀ t w0, trace (create_ort_value t w0).2 = trace w0) →
  let out := LoadAdaptersFromConfig create_ort_value model_path config (c, w) in
  out.1 = Ok tt →
  trace out.2.2 = trace w ++ batch_events model_path config.
Proof.
  intros Hquiet out. subst out. rewrite LoadAdaptersFromConfig_run.
  destruct (LoadAdaptersFromConfig_loop _ _ _ _) as [[[]|e] [adapters w1]] eqn:Hloop;
    [|done].
  intros _. simpl. by eapply LoadAdaptersFromConfig_loop_trace.
Qed.

(** X14: a bulk load returns only for a config whose names are pairwise
    distinct, and the registry then holds as many adapters as the config has
    entries. *)
Theorem LoadAdaptersFromConfig_one_adapter_per_entry
    (model_path : string) (config : list (string * string))
    (c : LoraAdapterContainer) (w : World) :
  let out := LoadAdaptersFromConfig create_ort_value model_path config (c, w) in
  out.1 = Ok tt →
  NoDup config.*1 ∧ size (adapters_ out.2.1) = length config.
Proof.
  intros out. subst out. rewrite LoadAdaptersFromConfig_run.
  destruct (LoadAdaptersFromConfig_loop _ _ _ _) as [[[]|e] [adapters w1]] eqn:Hloop;
    [|done].
  intros _. simpl.
  apply LoadAdaptersFromConfig_loop_ok in Hloop as (Hnodup & _ & Hin & Hout).
  split; [exact Hnodup|].
  assert (dom adapters = list_to_set config.*1) as Hdom.
  { apply set_eq. intros n. rewrite elem_of_dom, elem_of_list_to_set. split.
    - intros Hsome. destruct (decide (n ∈ config.*1)) as [|Hn]; [done|].
      rewrite (Hout n Hn), lookup_empty in Hsome. by destruct Hsome.
    - intros Hn. destruct (Hin n Hn) as (a & -> & _). by eexists. }
  rewrite <- size_dom, Hdom, size_list_to_set by done.
  by rewrite length_fmap.
Qed.

End RegistryRuns.

(** The extractor of the specification logs nothing. *)
Lemma CreateOrtValueOverFlatBufferLoraParameter_quiet (t : fbs_Tensor) (w : World) :
  trace (CreateOrtValueOverFlatBufferLoraParameter t w).2 = trace w.
Proof.
  rewrite CreateOrtValueOverFlatBufferLoraParameter_run.
  by destruct (length (fbs_dims t) <? 2)%nat.
Qed.

(** A batch of one entry loaded over a registry that held another adapter
    under the same name. *)
Lemma LoadAdaptersFromConfig_adapters_come_from_files_witness :
  ∃ a,
    adapters_ (LoadAdaptersFromConfig (ext := Demo.externals)
       CreateOrtValueOverFlatBufferLoraParameter "m"
       [("a", "ab.bin")] (Demo.registry_with_a, Demo.world0)).2.1 !! "a" = Some a
    ∧ buffer_ (format_holder_ a) = [Byte.x47; Byte.x56; Byte.x01; Byte.x01].
Proof.
  destruct (adapters_ (LoadAdaptersFromConfig (ext := Demo.externals)
       CreateOrtValueOverFlatBufferLoraParameter "m"
       [("a", "ab.bin")] (Demo.registry_with_a, Demo.world0)).2.1 !! "a")
    as [a|] eqn:Ha; [|vm_compute in Ha; discriminate Ha].
  exists a. split; [reflexivity|].
  destruct (LoadAdaptersFromConfig_adapters_come_from_files (ext := Demo.externals)
              CreateOrtValueOverFlatBufferLoraParameter "m"
              [("a", "ab.bin")] Demo.registry_with_a Demo.world0 eq_refl "a" a Ha)
    as (f & bytes & Hin & Hread & _ & _ & _ & Hholder).
  inversion Hin as [|? ? ? Hnil]; subst; [|inversion Hnil].
  rewrite Hholder. simpl. vm_compute in Hread. by injection Hread.
Defined.

(** Three entries of which the second names a file without the signature:
    the batch fails with that file's error, the registry is kept, and the
    file of the third entry is never opened. *)
Lemma LoadAdaptersFromConfig_first_failure_decides_witness :
  ∃ w2,
    LoadAdaptersFromConfig (ext := Demo.externals)
      CreateOrtValueOverFlatBufferLoraParameter "m"
      ([("a", "ab.bin")] ++ ("b", "junk.bin") :: [("c", "ab.bin")])
      (Demo.registry_with_a, Demo.world0)
    = (Throw (InvalidFormat "m/junk.bin"), (Demo.registry_with_a, w2))
    ∧ trace w2 = load_events "m/ab.bin" ++ [EvOpenFile "m/junk.bin"; EvMagicCheck].
Proof.
  set (first := LoadParametersFromFlatBuffer (ext := Demo.externals)
                  CreateOrtValueOverFlatBufferLoraParameter "m/ab.bin"
                  (SetName "a" LoraAdapter_default, Demo.world0)).
  set (second := LoadParametersFromFlatBuffer (ext := Demo.externals)
                   CreateOrtValueOverFlatBufferLoraParameter "m/junk.bin"
                   (SetName "b" LoraAdapter_default, first.2.2)).
  exists second.2.2. split.
  - apply (LoadAdaptersFromConfig_first_failure_decides (ext := Demo.externals)
             CreateOrtValueOverFlatBufferLoraParameter "m"
             [("a", "ab.bin")] [("c", "ab.bin")] "b" "junk.bin"
             Demo.registry_with_a Demo.world0 first.2.2 second.2.2
             (<["a" := first.2.1]> ∅) second.2.1 (InvalidFormat "m/junk.bin")).
    + intros Hin. inversion Hin as [|? ? ? Hnil]; subst. inversion Hnil.
    + vm_compute. reflexivity.
    + vm_compute. reflexivity.
  - vm_compute. reflexivity.
Defined.

(** Two entries: eight events, four per file, in the order of the config. *)
Lemma LoadAdaptersFromConfig_opens_files_in_order_witness :
  trace (LoadAdaptersFromConfig (ext := Demo.externals)
     CreateOrtValueOverFlatBufferLoraParameter "m"
     [("a", "ab.bin"); ("b", "empty.bin")] (Demo.empty_registry, Demo.world0)).2.2
  = [EvOpenFile "m/ab.bin"; EvMagicCheck; EvSchemaVerify; EvVersionCheck;
     EvOpenFile "m/empty.bin"; EvMagicCheck; EvSchemaVerify; EvVersionCheck].
Proof.
  exact (LoadAdaptersFromConfig_opens_files_in_order (ext := Demo.externals)
           CreateOrtValueOverFlatBufferLoraParameter "m"
           [("a", "ab.bin"); ("b", "empty.bin")] Demo.empty_registry Demo.world0
           CreateOrtValueOverFlatBufferLoraParameter_quiet eq_refl).
Defined.

Lemma LoadAdaptersFromConfig_one_adapter_per_entry_witness :
  NoDup ["a"; "b"]
  ∧ size (adapters_ (LoadAdaptersFromConfig (ext := Demo.externals)
       CreateOrtValueOverFlatBufferLoraParameter "m"
       [("a", "ab.bin"); ("b", "empty.bin")]
       (Demo.registry_with_a, Demo.world0)).2.1) = 2%nat.
Proof.
  exact (LoadAdaptersFromConfig_one_adapter_per_entry (ext := Demo.externals)
           CreateOrtValueOverFlatBufferLoraParameter "m"
           [("a", "ab.bin"); ("b", "empty.bin")] Demo.registry_with_a Demo.world0
           eq_refl).
Defined.
